(** * caddy-cors: the CORS middleware of [cors.go], embedded and verified

    The development follows [src/cors.go]:
    - the Go library functions the handler calls ([strings], [net/textproto],
      [net/http], [fmt]) are given executable models first;
    - the [Cors] module itself ([Provision], [Validate], [ServeHTTP] and its
      helpers, and the unused [responseWriter]) comes next, written in a small
      state monad that threads what the Go code mutates: the configuration
      during start-up, the response header map and the zap logger's output
      during a request;
    - the theorems about the module close the file.

    Go's [regexp.MatchString] is not modelled: the development is
    parametric in it (the class [regexp.Matcher]). *)

From Stdlib Require Import ZArith Ascii String List Bool Lia DecimalString.
From stdpp Require Import gmap strings list fin_maps.

Local Open Scope string_scope.
Local Open Scope Z_scope.

(** ** Go's [strings] package *)

Module strings.

(** [strings.HasPrefix(s, prefix)] *)
Definition HasPrefix (s prefix : string) : bool := String.prefix prefix s.

(** [strings.HasSuffix(s, suffix)]:
    [len(s) >= len(suffix) && s[len(s)-len(suffix):] == suffix] *)
Definition HasSuffix (s suffix : string) : bool :=
  (String.length suffix <=? String.length s)%nat
  && String.eqb
       (String.substring (String.length s - String.length suffix)
                         (String.length suffix) s)
       suffix.

(** [strings.Contains(s, substr)]: [substr] occurs at some offset of [s]. *)
Fixpoint Contains (s substr : string) : bool :=
  String.prefix substr s
  || match s with
     | EmptyString => false
     | String _ s' => Contains s' substr
     end.

(** [strings.Join(elems, sep)] *)
Fixpoint Join (elems : list string) (sep : string) : string :=
  match elems with
  | [] => ""
  | [e] => e
  | e :: rest => String.append e (String.append sep (Join rest sep))
  end.

End strings.

(** ** Go's [fmt.Sprintf("%d", n)] *)

Definition Sprintf_d (n : Z) : string := NilZero.string_of_int (Z.to_int n).

(** ** Go's [net/textproto] header keys and [net/http.Header] *)

Module textproto.

Definition byte_in (lo hi : N) (c : ascii) : bool :=
  (lo <=? N_of_ascii c)%N && (N_of_ascii c <=? hi)%N.

Definition is_lower : ascii -> bool := byte_in 97 122.
Definition is_upper : ascii -> bool := byte_in 65 90.
Definition is_digit : ascii -> bool := byte_in 48 57.

(** The token bytes of RFC 7230, as in Go's bitmap. *)
Definition validHeaderFieldByte (c : ascii) : bool :=
  is_digit c || is_lower c || is_upper c
  || existsb (Ascii.eqb c) (list_ascii_of_string "!#$%&'*+-.^_`|~").

Definition toLower : N := 32.

(** The rewriting loop of [canonicalMIMEHeaderKey]: upper case at the start
    and after each dash, lower case elsewhere. *)
Fixpoint canonicalize (upper : bool) (a : string) : string :=
  match a with
  | EmptyString => EmptyString
  | String c a' =>
      let c' :=
        if upper && is_lower c then ascii_of_N (N_of_ascii c - toLower)
        else if negb upper && is_upper c then ascii_of_N (N_of_ascii c + toLower)
        else c in
      String c' (canonicalize (Ascii.eqb c' "-") a')
  end.

(** [textproto.CanonicalMIMEHeaderKey]: a key with a byte outside the token
    bytes (a space included) is returned unchanged. *)
Definition CanonicalMIMEHeaderKey (s : string) : string :=
  if forallb validHeaderFieldByte (list_ascii_of_string s)
  then canonicalize true s
  else s.

End textproto.

(** [http.Header] is [map[string][]string]. *)
Abbreviation Header := (gmap string (list string)).

Module http.

(** [Header.Get]: the first value under the canonical key, or [""]. *)
Definition Get (h : Header) (key : string) : string :=
  match h !! textproto.CanonicalMIMEHeaderKey key with
  | Some (v :: _) => v
  | _ => ""
  end.

(** [Header.Set]: the canonical key now holds exactly [[value]]. *)
Definition Set_ (h : Header) (key value : string) : Header :=
  <[textproto.CanonicalMIMEHeaderKey key := [value]]> h.

(** [Header.Del] *)
Definition Del (h : Header) (key : string) : Header :=
  delete (textproto.CanonicalMIMEHeaderKey key) h.

(** The part of [*http.Request] the module reads. *)
Record Request := { Method : string; Header_ : Header }.

End http.

(** ** Go's [regexp.MatchString], an interface of the development

    [MatchString pattern s] returns Go's pair [(matched, err)]; [err] is
    [Some _] when [pattern] does not compile. *)

Definition error : Type := option string.

Module regexp.

Class Matcher : Type := MatchString : string -> string -> bool * error.

(** A matcher for the worked examples.  It answers as Go does on the two
    patterns the examples use: the unbalanced group, which Go refuses to
    compile, and the sub-domain pattern of the specification's scenario 2
    ([.] does not match a line feed).  Every other pattern is answered
    "no match", which the examples never rely on. *)
Definition example : Matcher := fun pattern s =>
  if String.eqb pattern "^($" then
    (false, Some "error parsing regexp: missing closing ): `^($`")
  else if String.eqb pattern "^https://.*\.example\.com$" then
    (strings.HasPrefix s "https://"
     && strings.HasSuffix s ".example.com"
     && (20 <=? String.length s)%nat
     && negb (existsb (Ascii.eqb "010"%char)
                (list_ascii_of_string
                   (String.substring 8 (String.length s - 20) s))),
     None)
  else (false, None).

End regexp.

(** ** The zap logger

    The module only writes to its logger.  A logger is modelled by the
    entries written to it, oldest first. *)

Module zap.

Inductive Level : Type := DebugLevel | InfoLevel | WarnLevel.

Inductive Field : Type :=
| String_ (key val : string)
| Strings (key : string) (vals : list string)
| Bool (key : string) (val : bool)
| Int (key : string) (val : Z).

Record Entry : Type := { level : Level; message : string; fields : list Field }.

Abbreviation Logger := (list Entry).

End zap.

(** ** A state monad for the code that mutates *)

Definition M (S A : Type) : Type := S -> A * S.

Definition ret {S A : Type} (a : A) : M S A := fun s => (a, s).

Definition bind {S A B : Type} (m : M S A) (k : A -> M S B) : M S B :=
  fun s => k (m s).1 (m s).2.

Definition gets {S A : Type} (f : S -> A) : M S A := fun s => (f s, s).

Definition modify {S : Type} (f : S -> S) : M S unit := fun s => (tt, f s).

Declare Scope go_scope.
Delimit Scope go_scope with go.
Notation "x <- m ;; k" := (bind m (fun x => k))
  (at level 100, m at next level, right associativity) : go_scope.
Notation "m ;; k" := (bind m (fun _ => k))
  (at level 100, right associativity) : go_scope.

(** States that carry a logger. *)
Class Logging (S : Type) : Type := emit : zap.Entry -> S -> S.

Definition logger_write {S : Type} `{Logging S}
    (lvl : zap.Level) (msg : string) (fs : list zap.Field) : M S unit :=
  modify (emit {| zap.level := lvl; zap.message := msg; zap.fields := fs |}).

Definition logger_Debug {S : Type} `{Logging S} := logger_write (S:=S) zap.DebugLevel.
Definition logger_Info {S : Type} `{Logging S} := logger_write (S:=S) zap.InfoLevel.
Definition logger_Warn {S : Type} `{Logging S} := logger_write (S:=S) zap.WarnLevel.

(** ** The [Cors] module: configuration

    [MaxAge] is a Go [int]; the module only compares it with constants and
    prints it, so it is an integer without wrap-around here.  The [logger]
    field is a pointer: what it receives lives in the states below. *)

Record Cors : Type := {
  AllowedOrigins : list string;
  OverrideExistingCors : bool;
  AllowedMethods : list string;
  AllowCredentials : bool;
  MaxAge : Z;
  AllowedHeaders : list string;
  ExposedHeaders : list string
}.

Definition set_AllowedOrigins (v : list string) (c : Cors) : Cors :=
  {| AllowedOrigins := v;
     OverrideExistingCors := OverrideExistingCors c;
     AllowedMethods := AllowedMethods c;
     AllowCredentials := AllowCredentials c;
     MaxAge := MaxAge c;
     AllowedHeaders := AllowedHeaders c;
     ExposedHeaders := ExposedHeaders c |}.

Definition set_AllowedMethods (v : list string) (c : Cors) : Cors :=
  {| AllowedOrigins := AllowedOrigins c;
     OverrideExistingCors := OverrideExistingCors c;
     AllowedMethods := v;
     AllowCredentials := AllowCredentials c;
     MaxAge := MaxAge c;
     AllowedHeaders := AllowedHeaders c;
     ExposedHeaders := ExposedHeaders c |}.

Definition set_MaxAge (v : Z) (c : Cors) : Cors :=
  {| AllowedOrigins := AllowedOrigins c;
     OverrideExistingCors := OverrideExistingCors c;
     AllowedMethods := AllowedMethods c;
     AllowCredentials := AllowCredentials c;
     MaxAge := v;
     AllowedHeaders := AllowedHeaders c;
     ExposedHeaders := ExposedHeaders c |}.

(** Start-up state: the module behind the pointer receiver [c *Cors], and
    what its logger has received.  The model is of a provisioned module, as
    Caddy runs [Provision] before [Validate] and [ServeHTTP]. *)
Record Startup : Type := { module_ : Cors; startup_log : zap.Logger }.

#[export] Instance Startup_logging : Logging Startup := fun e s =>
  {| module_ := module_ s; startup_log := startup_log s ++ [e] |}.

Definition update (f : Cors -> Cors) : M Startup unit :=
  modify (fun s => {| module_ := f (module_ s); startup_log := startup_log s |}).

Local Open Scope go_scope.

(** [func (c *Cors) Provision(ctx caddy.Context) error] *)
Definition Provision : M Startup error :=
  c <- gets module_ ;;
  (if (length (AllowedOrigins c) =? 0)%nat then
     update (set_AllowedOrigins ["*"]) ;;
     logger_Debug "Cors: No allowed origins specified, defaulting to * (all origins)" []
   else ret tt) ;;
  c <- gets module_ ;;
  (if (length (AllowedMethods c) =? 0)%nat then
     update (set_AllowedMethods ["GET"; "POST"; "PUT"; "DELETE"; "PATCH"; "OPTIONS"]) ;;
     logger_Debug "Cors: No allowed methods specified, defaulting to GET, POST, PUT, DELETE, PATCH, OPTIONS" []
   else ret tt) ;;
  c <- gets module_ ;;
  (if MaxAge c =? 0 then
     update (set_MaxAge 5) ;;
     c <- gets module_ ;;
     logger_Debug "Cors: No max age specified, defaulting to 5 seconds (as per spec)"
       [zap.Int "max_age" (MaxAge c)]
   else ret tt) ;;
  c <- gets module_ ;;
  logger_Info "Cors: Configured"
    [zap.Strings "allowed_origins" (AllowedOrigins c);
     zap.Bool "override_existing_cors" (OverrideExistingCors c);
     zap.Strings "allowed_methods" (AllowedMethods c);
     zap.Bool "allow_credentials" (AllowCredentials c);
     zap.Int "max_age" (MaxAge c);
     zap.Strings "allowed_headers" (AllowedHeaders c);
     zap.Strings "exposed_headers" (ExposedHeaders c)] ;;
  ret None.

(** The loop of [Validate] over [c.AllowedMethods]: the first entry with a
    comma returns the error. *)
Fixpoint check_methods (methods : list string) : error :=
  match methods with
  | [] => None
  | method :: rest =>
      if strings.Contains method "," then
        Some "Cors: Allowed methods formatted incorrectly, should be a comma separated list of methods"
      else check_methods rest
  end.

(** [func (c *Cors) Validate() error] *)
Definition Validate : M Startup error :=
  c <- gets module_ ;;
  (if 86400 <? MaxAge c then
     update (set_MaxAge 86400) ;;
     logger_Warn "Cors: Max age capped to 24 hours" []
   else ret tt) ;;
  c <- gets module_ ;;
  ret (check_methods (AllowedMethods c)).

Definition provisioned (c : Cors) : Startup := {| module_ := c; startup_log := [] |}.

(** ** The [Cors] module: request handling *)

(** What a request mutates: the header map behind [w.Header()] and the
    logger.  [forwarded] is a ghost record of the calls to the next handler:
    one element per call, the response header map as the handler received
    it. *)
Record Exchange : Type := {
  w_Header : Header;
  request_log : zap.Logger;
  forwarded : list Header
}.

#[export] Instance Exchange_logging : Logging Exchange := fun e s =>
  {| w_Header := w_Header s;
     request_log := request_log s ++ [e];
     forwarded := forwarded s |}.

(** [caddyhttp.Handler]: the rest of the chain may rewrite the response
    headers and returns an error or [nil]. *)
Definition Handler : Type := http.Request -> Header -> Header * error.

(** [next.ServeHTTP(w, r)] *)
Definition next_ServeHTTP (next : Handler) (r : http.Request) : M Exchange error :=
  fun s =>
    ((next r (w_Header s)).2,
     {| w_Header := (next r (w_Header s)).1;
        request_log := request_log s;
        forwarded := forwarded s ++ [w_Header s] |}).

(** Modelled from the spec: the helper [contains(list, item)] that
    [ServeHTTP] calls on [c.AllowedHeaders] is declared in no file under src/;
    section 4.3, step 2b, reads the test as "the list contains the wildcard
    token". *)
Definition contains (l : list string) (item : string) : bool :=
  existsb (String.eqb item) l.

(** [func (c *Cors) setHeader(w http.ResponseWriter, headerName string, headerValue string)] *)
Definition setHeader (c : Cors) (headerName headerValue : string) : M Exchange unit :=
  logger_Info "Cors: Setting header"
    [zap.String_ "header_name" headerName; zap.String_ "header_value" headerValue] ;;
  if OverrideExistingCors c then
    modify (fun s => {| w_Header := http.Set_ (w_Header s) headerName headerValue;
                        request_log := request_log s;
                        forwarded := forwarded s |}) ;;
    logger_Info "Cors: Header set"
      [zap.String_ "header_name" headerName; zap.String_ "header_value" headerValue]
  else ret tt.

(** [func (c *Cors) isPreflight(r *http.Request) bool] *)
Definition isPreflight (c : Cors) (r : http.Request) : M Exchange bool :=
  logger_Info "Cors: Checking if preflight request" [] ;;
  ret (String.eqb (http.Method r) "OPTIONS"
       && negb (String.eqb (http.Get (http.Header_ r) "Access-Control-Request-Method") "")).

Section Matching.

Context `{regexp.Matcher}.

(** The [for _, allowedOrigin := range c.AllowedOrigins] loop of
    [shouldHandleCors]; [false] is falling out of the loop. *)
Fixpoint range_AllowedOrigins (origin : string) (allowedOrigins : list string)
    : M Exchange bool :=
  match allowedOrigins with
  | [] => ret false
  | allowedOrigin :: rest =>
      if String.eqb allowedOrigin "*" then
        logger_Info "Cors: Allowed origin is *" [] ;;
        ret true
      else
        logger_Info "Cors: Checking if allowed origin is regex" [] ;;
        if strings.HasPrefix allowedOrigin "^" && strings.HasSuffix allowedOrigin "$"
           && (let '(matched, err) := regexp.MatchString allowedOrigin origin in
               match err with None => matched | Some _ => false end)
        then
          logger_Info "Cors: Allowed origin is regex and matches"
            [zap.String_ "allowed_origin" allowedOrigin; zap.String_ "origin" origin] ;;
          ret true
        else if String.eqb origin allowedOrigin then
          logger_Info "Cors: Allowed origin matches"
            [zap.String_ "allowed_origin" allowedOrigin; zap.String_ "origin" origin] ;;
          ret true
        else range_AllowedOrigins origin rest
  end.

(** [func (c *Cors) shouldHandleCors(r *http.Request) bool] *)
Definition shouldHandleCors (c : Cors) (r : http.Request) : M Exchange bool :=
  let origin := http.Get (http.Header_ r) "Origin" in
  logger_Info "Cors: Checking if should handle cors" [zap.String_ "origin" origin] ;;
  found <- range_AllowedOrigins origin (AllowedOrigins c) ;;
  if found then ret true
  else
    logger_Info "Cors: Should not handle cors" [] ;;
    ret false.

(** The [for header := range w.Header()] loop of [ServeHTTP], over the keys
    of the map (Go leaves their order unspecified). *)
Fixpoint range_existing (headers : list string) : M Exchange unit :=
  match headers with
  | [] => ret tt
  | header :: rest =>
      (if strings.HasPrefix header "Access-Control-" then
         logger_Debug "Cors: Access-Control-* header already set"
           [zap.String_ "header" header]
       else ret tt) ;;
      range_existing rest
  end.

(** [func (c Cors) ServeHTTP(w http.ResponseWriter, r *http.Request, next caddyhttp.Handler) error] *)
Definition ServeHTTP (c : Cors) (r : http.Request) (next : Handler) : M Exchange error :=
  let origin := http.Get (http.Header_ r) "Origin" in
  logger_Debug "Cors: Origin" [zap.String_ "origin" origin] ;;
  if String.eqb origin "" then
    logger_Debug "Cors: No origin header, skipping" [] ;;
    next_ServeHTTP next r
  else
    h <- gets w_Header ;;
    range_existing (map_to_list h).*1 ;;
    handle <- shouldHandleCors c r ;;
    (if handle then
       setHeader c "Access-Control-Allow-Origin" origin ;;
       setHeader c "Vary" "Access-Control-Allow-Origin" ;;
       logger_Info "Cors: Set Access-Control-Allow-Origin" [zap.String_ "origin" origin] ;;
       preflight <- isPreflight c r ;;
       (if preflight then
          logger_Info "Cors: Preflight request" [] ;;
          setHeader c "Access-Control-Allow-Methods" (strings.Join (AllowedMethods c) ", ") ;;
          logger_Info "Cors: Set Access-Control-Allow-Methods"
            [zap.Strings "methods" (AllowedMethods c)] ;;
          (if (0 <? length (AllowedHeaders c))%nat then
             if contains (AllowedHeaders c) "*" then
               setHeader c "Access-Control-Allow-Headers"
                 (http.Get (http.Header_ r) "Access-Control-Request-Headers") ;;
               logger_Info "Cors: Set Access-Control-Allow-Headers"
                 [zap.String_ "headers"
                    (http.Get (http.Header_ r) "Access-Control-Request-Headers")]
             else
               setHeader c "Access-Control-Allow-Headers"
                 (strings.Join (AllowedHeaders c) ", ") ;;
               logger_Info "Cors: Set Access-Control-Allow-Headers"
                 [zap.Strings "headers" (AllowedHeaders c)]
           else ret tt) ;;
          (if 0 <? MaxAge c then
             logger_Info "Cors: Access-Control-Max-Age header is set to"
               [zap.String_ "max_age" (http.Get (http.Header_ r) "Access-Control-Max-Age")] ;;
             setHeader c "Access-Control-Max-Age" (Sprintf_d (MaxAge c)) ;;
             logger_Info "Cors: Set Access-Control-Max-Age" [zap.Int "max_age" (MaxAge c)]
           else ret tt)
        else
          (if (0 <? length (ExposedHeaders c))%nat then
             setHeader c "Access-Control-Expose-Headers"
               (strings.Join (ExposedHeaders c) ", ") ;;
             logger_Info "Cors: Set Access-Control-Expose-Headers"
               [zap.Strings "exposed_headers" (ExposedHeaders c)]
           else ret tt)) ;;
       (if AllowCredentials c then
          setHeader c "Access-Control-Allow-Credentials" "true" ;;
          logger_Info "Cors: Set Access-Control-Allow-Credentials"
            [zap.Bool "allow_credentials" (AllowCredentials c)]
        else ret tt)
     else ret tt) ;;
    logger_Info "Cors: Calling next middleware" [] ;;
    next_ServeHTTP next r.

End Matching.

(** ** The unused [responseWriter] *)

(** [func (rw *responseWriter) HandleHeader(header string, value string)] *)
Definition HandleHeader (c : Cors) (header value : string) : M Exchange unit :=
  h <- gets w_Header ;;
  let headerExists := negb (String.eqb (http.Get h header) "") in
  if headerExists && negb (OverrideExistingCors c) then
    logger_Info "Cors: Header already exists, not overriding" [zap.String_ "header" header]
  else
    (if headerExists then
       modify (fun s => {| w_Header := http.Del (w_Header s) header;
                           request_log := request_log s;
                           forwarded := forwarded s |})
     else ret tt) ;;
    modify (fun s => {| w_Header := http.Set_ (w_Header s) header value;
                        request_log := request_log s;
                        forwarded := forwarded s |}).

(** The [for header, _ := range rw.ResponseWriter.Header()] loop of
    [WriteHeader]; a key deleted earlier in the loop is not visited. *)
Fixpoint range_strip (headers : list string) : M Exchange unit :=
  match headers with
  | [] => ret tt
  | header :: rest =>
      h <- gets w_Header ;;
      (if bool_decide (is_Some (h !! header)) && strings.HasPrefix header "Access-Control-" then
         logger_Info "Cors: Removing existing CORS header" [zap.String_ "header" header] ;;
         modify (fun s => {| w_Header := http.Del (w_Header s) header;
                             request_log := request_log s;
                             forwarded := forwarded s |})
       else ret tt) ;;
      range_strip rest
  end.

(** [func (rw *responseWriter) WriteHeader(statusCode int)] *)
Definition WriteHeader (c : Cors) (statusCode : Z) : M Exchange unit :=
  if OverrideExistingCors c then
    h <- gets w_Header ;;
    range_strip (map_to_list h).*1
  else ret tt.

(** An exchange that starts with response headers [h]. *)
Definition exchange (h : Header) : Exchange :=
  {| w_Header := h; request_log := []; forwarded := [] |}.

(** ** Summaries used by the proofs

    Pure readings of the monadic code, each proved equal to it below. *)

(** What one iteration of the loop of [shouldHandleCors] decides. *)
Definition entry_admits `{regexp.Matcher} (origin allowedOrigin : string) : bool :=
  String.eqb allowedOrigin "*"
  || (strings.HasPrefix allowedOrigin "^" && strings.HasSuffix allowedOrigin "$"
      && (let '(matched, err) := regexp.MatchString allowedOrigin origin in
          match err with None => matched | Some _ => false end))
  || String.eqb origin allowedOrigin.

(** The value [isPreflight] returns. *)
Definition preflight (r : http.Request) : bool :=
  String.eqb (http.Method r) "OPTIONS"
  && negb (String.eqb (http.Get (http.Header_ r) "Access-Control-Request-Method") "").

(** The effect of [setHeader] on the header map. *)
Definition put (c : Cors) (headerName headerValue : string) (h : Header) : Header :=
  if OverrideExistingCors c then http.Set_ h headerName headerValue else h.

(** The effect of the admitted branch of [ServeHTTP] on the header map. *)
Definition admitted_headers (c : Cors) (r : http.Request) (h : Header) : Header :=
  let h1 := put c "Vary" "Access-Control-Allow-Origin"
              (put c "Access-Control-Allow-Origin" (http.Get (http.Header_ r) "Origin") h) in
  let h2 :=
    if preflight r then
      let m := put c "Access-Control-Allow-Methods" (strings.Join (AllowedMethods c) ", ") h1 in
      let a :=
        if (0 <? length (AllowedHeaders c))%nat then
          if contains (AllowedHeaders c) "*" then
            put c "Access-Control-Allow-Headers"
              (http.Get (http.Header_ r) "Access-Control-Request-Headers") m
          else put c "Access-Control-Allow-Headers" (strings.Join (AllowedHeaders c) ", ") m
        else m in
      if 0 <? MaxAge c then put c "Access-Control-Max-Age" (Sprintf_d (MaxAge c)) a else a
    else if (0 <? length (ExposedHeaders c))%nat then
      put c "Access-Control-Expose-Headers" (strings.Join (ExposedHeaders c) ", ") h1
    else h1 in
  if AllowCredentials c then put c "Access-Control-Allow-Credentials" "true" h2 else h2.

(** The header map [ServeHTTP] hands to the next handler, from the one it
    received. *)
Definition headers_for `{regexp.Matcher} (c : Cors) (r : http.Request) (h : Header) : Header :=
  let origin := http.Get (http.Header_ r) "Origin" in
  if String.eqb origin "" then h
  else if existsb (entry_admits origin) (AllowedOrigins c) then admitted_headers c r h
  else h.

(** The header names [ServeHTTP] passes to [setHeader]. *)
Definition cors_names : list string :=
  ["Access-Control-Allow-Origin"; "Vary"; "Access-Control-Allow-Methods";
   "Access-Control-Allow-Headers"; "Access-Control-Max-Age";
   "Access-Control-Expose-Headers"; "Access-Control-Allow-Credentials"].

(** [m] returns [a], turns the header map [h] into [f h] and calls no
    handler. *)
Definition writes {A : Type} (m : M Exchange A) (a : A) (f : Header -> Header) : Prop :=
  forall s, (m s).1 = a
            /\ w_Header (m s).2 = f (w_Header s)
            /\ forwarded (m s).2 = forwarded s.

(** [m] calls [next] once, on the header map [f h], and returns what it
    returns. *)
Definition forwards (m : M Exchange error) (next : Handler) (r : http.Request)
    (f : Header -> Header) : Prop :=
  forall s, (m s).1 = (next r (f (w_Header s))).2
            /\ w_Header (m s).2 = (next r (f (w_Header s))).1
            /\ forwarded (m s).2 = (forwarded s ++ [f (w_Header s)])%list.


(** ** Inputs of the worked examples *)

Definition open_policy : Cors :=
  {| AllowedOrigins := ["*"]; OverrideExistingCors := true;
     AllowedMethods := ["GET"; "POST"]; AllowCredentials := false; MaxAge := 5;
     AllowedHeaders := ["*"]; ExposedHeaders := [] |}.

Definition listed_policy : Cors :=
  {| AllowedOrigins := ["https://app.example.com"; "*"]; OverrideExistingCors := true;
     AllowedMethods := ["GET"; "POST"]; AllowCredentials := true; MaxAge := 600;
     AllowedHeaders := ["Content-Type"; "X-Token"]; ExposedHeaders := ["X-Total"] |}.

Definition silent_policy : Cors :=
  {| AllowedOrigins := ["*"]; OverrideExistingCors := false;
     AllowedMethods := ["GET"; "POST"]; AllowCredentials := true; MaxAge := 5;
     AllowedHeaders := ["*"]; ExposedHeaders := ["X-Total"] |}.

Definition bare_policy : Cors :=
  {| AllowedOrigins := ["*"]; OverrideExistingCors := true;
     AllowedMethods := ["GET"]; AllowCredentials := false; MaxAge := 5;
     AllowedHeaders := []; ExposedHeaders := [] |}.

Definition broken_regex_policy : Cors :=
  {| AllowedOrigins := ["^($"]; OverrideExistingCors := true;
     AllowedMethods := ["GET"]; AllowCredentials := false; MaxAge := 5;
     AllowedHeaders := []; ExposedHeaders := [] |}.

Definition negative_age_policy : Cors :=
  {| AllowedOrigins := ["*"]; OverrideExistingCors := true;
     AllowedMethods := ["GET"]; AllowCredentials := false; MaxAge := -1;
     AllowedHeaders := []; ExposedHeaders := [] |}.

Definition long_age_policy : Cors :=
  {| AllowedOrigins := []; OverrideExistingCors := false;
     AllowedMethods := []; AllowCredentials := false; MaxAge := 100000;
     AllowedHeaders := []; ExposedHeaders := [] |}.

Definition joined_methods_policy : Cors :=
  {| AllowedOrigins := ["*"]; OverrideExistingCors := false;
     AllowedMethods := ["GET,POST"]; AllowCredentials := false; MaxAge := 5;
     AllowedHeaders := []; ExposedHeaders := [] |}.

Definition get_request : http.Request :=
  {| http.Method := "GET";
     http.Header_ := {[ "Origin" := ["http://example.com"] ]} |}.

Definition preflight_request : http.Request :=
  {| http.Method := "OPTIONS";
     http.Header_ := {[ "Origin" := ["http://example.com"];
                        "Access-Control-Request-Method" := ["POST"];
                        "Access-Control-Request-Headers" := ["X-Custom"] ]} |}.

Definition bare_options_request : http.Request :=
  {| http.Method := "OPTIONS";
     http.Header_ := {[ "Origin" := ["http://example.com"] ]} |}.

Definition same_origin_request : http.Request :=
  {| http.Method := "GET"; http.Header_ := {[ "Accept" := ["*/*"] ]} |}.

Definition odd_origin_request : http.Request :=
  {| http.Method := "GET"; http.Header_ := {[ "Origin" := ["^($"] ]} |}.

(** A next handler that answers with a content type and no error. *)
Definition static_handler : Handler := fun _ h =>
  (http.Set_ h "Content-Type" "text/plain", None).

(** Response headers set before the module runs. *)
Definition upstream_headers : Header :=
  {[ "Vary" := ["Accept-Encoding"];
     "Access-Control-Allow-Origin" := ["https://old.example"];
     "Access-Control-Allow-Private-Network" := ["true"] ]}.

(** ** The Caddyfile directive ([UnmarshalCaddyfile])

    [caddyfile.Dispenser] and [strconv.Atoi] are libraries the module calls;
    the development is parametric in them.  The two [for] loops of
    [UnmarshalCaddyfile] only move the dispenser from one subdirective to the
    next; what the module decides is the [switch] on the subdirective, which
    is the part embedded here. *)

Module strconv.

(** [strconv.Atoi]: the integer and the error, whose text [%v] prints. *)
Class Parser : Type := Atoi : string -> Z * error.

(** A parser for the worked examples: Go's fast path for inputs of 1 to 18
    bytes (an optional sign, then decimal digits only).  The empty input is a
    syntax error as in Go; longer inputs, which the examples never use, are
    answered with a range error. *)
Definition example : Parser := fun s =>
  if (0 <? String.length s)%nat && (String.length s <? 19)%nat then
    let '(neg, body) :=
      match s with
      | String "-"%char s' => (true, s')
      | String "+"%char s' => (false, s')
      | _ => (false, s)
      end in
    match NilZero.uint_of_string body with
    | Some u => (if neg : bool then - Z.of_uint u else Z.of_uint u, None)
    | None => (0, Some "strconv.Atoi: invalid syntax")
    end
  else if (String.length s =? 0)%nat then (0, Some "strconv.Atoi: invalid syntax")
  else (0, Some "strconv.Atoi: value out of range").

End strconv.

Module caddyfile.

(** The methods of [*caddyfile.Dispenser] the [switch] calls, on a dispenser
    state [D]: [Val] reads the current token, [NextArg] and [RemainingArgs]
    advance on the current line, [ArgErr] and [Errf] build the text of an
    error at the current position ([Errf] from the formatted message). *)
Class Dispenser (D : Type) : Type := {
  Val : D -> string;
  NextArg : D -> bool * D;
  RemainingArgs : D -> list string * D;
  ArgErr : D -> string;
  Errf : D -> string -> string
}.

(** A dispenser for the worked examples: the tokens of one line, the current
    one first. *)
Definition line : Dispenser (list string) := {|
  Val := fun d => match d with tok :: _ => tok | [] => "" end;
  NextArg := fun d => match d with _ :: (arg :: rest) => (true, arg :: rest) | _ => (false, d) end;
  RemainingArgs := fun d => (tail d, [List.last d ""]);
  ArgErr := fun d => "wrong argument count or unexpected line ending after '"
                     +:+ match d with tok :: _ => tok | [] => "" end +:+ "'";
  Errf := fun _ msg => msg
|}.

End caddyfile.

Definition set_OverrideExistingCors (v : bool) (c : Cors) : Cors :=
  {| AllowedOrigins := AllowedOrigins c;
     OverrideExistingCors := v;
     AllowedMethods := AllowedMethods c;
     AllowCredentials := AllowCredentials c;
     MaxAge := MaxAge c;
     AllowedHeaders := AllowedHeaders c;
     ExposedHeaders := ExposedHeaders c |}.

Definition set_AllowCredentials (v : bool) (c : Cors) : Cors :=
  {| AllowedOrigins := AllowedOrigins c;
     OverrideExistingCors := OverrideExistingCors c;
     AllowedMethods := AllowedMethods c;
     AllowCredentials := v;
     MaxAge := MaxAge c;
     AllowedHeaders := AllowedHeaders c;
     ExposedHeaders := ExposedHeaders c |}.

Definition set_AllowedHeaders (v : list string) (c : Cors) : Cors :=
  {| AllowedOrigins := AllowedOrigins c;
     OverrideExistingCors := OverrideExistingCors c;
     AllowedMethods := AllowedMethods c;
     AllowCredentials := AllowCredentials c;
     MaxAge := MaxAge c;
     AllowedHeaders := v;
     ExposedHeaders := ExposedHeaders c |}.

Definition set_ExposedHeaders (v : list string) (c : Cors) : Cors :=
  {| AllowedOrigins := AllowedOrigins c;
     OverrideExistingCors := OverrideExistingCors c;
     AllowedMethods := AllowedMethods c;
     AllowCredentials := AllowCredentials c;
     MaxAge := MaxAge c;
     AllowedHeaders := AllowedHeaders c;
     ExposedHeaders := v |}.

(** What [UnmarshalCaddyfile] mutates: the dispenser [d] and the module
    behind [c *Cors]. *)
Record Unmarshal (D : Type) : Type := { d_ : D; c_ : Cors }.
Arguments d_ {D} _.
Arguments c_ {D} _.

Section Subdirective.

Context {D : Type} {dispenser : caddyfile.Dispenser D} {parser : strconv.Parser}.

(** A dispenser method that returns a value and moves the dispenser. *)
Definition call {A : Type} (method : D -> A * D) : M (Unmarshal D) A :=
  fun u => ((method (d_ u)).1, {| d_ := (method (d_ u)).2; c_ := c_ u |}).

(** An assignment to a field of [c]. *)
Definition assign (f : Cors -> Cors) : M (Unmarshal D) unit :=
  modify (fun u => {| d_ := d_ u; c_ := f (c_ u) |}).

(** The body of the inner loop of [UnmarshalCaddyfile], the [switch d.Val()];
    [Some _] is the error the function returns at once, [None] lets the loop
    go on. *)
Definition subdirective : M (Unmarshal D) error :=
  val <- gets (fun u => caddyfile.Val (d_ u)) ;;
  if String.eqb val "allowed_origins" then
    args <- call caddyfile.RemainingArgs ;;
    assign (set_AllowedOrigins args) ;;
    ret None
  else if String.eqb val "override_existing_cors" then
    more <- call caddyfile.NextArg ;;
    if more then
      val <- gets (fun u => caddyfile.Val (d_ u)) ;;
      assign (set_OverrideExistingCors (String.eqb val "true")) ;;
      ret None
    else
      err <- gets (fun u => caddyfile.ArgErr (d_ u)) ;;
      ret (Some err)
  else if String.eqb val "allowed_methods" then
    args <- call caddyfile.RemainingArgs ;;
    assign (set_AllowedMethods args) ;;
    ret None
  else if String.eqb val "allow_credentials" then
    more <- call caddyfile.NextArg ;;
    if more then
      val <- gets (fun u => caddyfile.Val (d_ u)) ;;
      assign (set_AllowCredentials (String.eqb val "true")) ;;
      ret None
    else
      err <- gets (fun u => caddyfile.ArgErr (d_ u)) ;;
      ret (Some err)
  else if String.eqb val "max_age" then
    more <- call caddyfile.NextArg ;;
    if more then
      val <- gets (fun u => caddyfile.Val (d_ u)) ;;
      let '(maxAge, err) := strconv.Atoi val in
      match err with
      | Some e =>
          msg <- gets (fun u => caddyfile.Errf (d_ u) ("invalid max_age value: " +:+ e)) ;;
          ret (Some msg)
      | None =>
          assign (set_MaxAge maxAge) ;;
          ret None
      end
    else
      err <- gets (fun u => caddyfile.ArgErr (d_ u)) ;;
      ret (Some err)
  else if String.eqb val "allowed_headers" then
    args <- call caddyfile.RemainingArgs ;;
    assign (set_AllowedHeaders args) ;;
    ret None
  else if String.eqb val "exposed_headers" then
    args <- call caddyfile.RemainingArgs ;;
    assign (set_ExposedHeaders args) ;;
    ret None
  else
    msg <- gets (fun u => caddyfile.Errf (d_ u) ("unrecognized subdirective " +:+ val)) ;;
    ret (Some msg).

End Subdirective.

(** ** Further summaries used by the proofs *)

(** What [f] writes under a name does not depend on the map it is given:
    at each name, [f] either keeps the entry or puts the same entry in any
    two maps. *)
Definition overwrites (f : Header -> Header) : Prop :=
  forall (h h' : Header) (k : string),
    (f h !! k = h !! k /\ f h' !! k = h' !! k) \/ f h !! k = f h' !! k.

(** [m] keeps every entry the logger already holds. *)
Definition keeps_log {A : Type} (m : M Exchange A) : Prop :=
  forall s e, In e (request_log s) -> In e (request_log (m s).2).

(** The entry [ServeHTTP] logs for a response header that is already set. *)
Definition already_set (header : string) : zap.Entry :=
  {| zap.level := zap.DebugLevel;
     zap.message := "Cors: Access-Control-* header already set";
     zap.fields := [zap.String_ "header" header] |}.

(** ** Further inputs of the worked examples *)

Definition empty_policy : Cors :=
  {| AllowedOrigins := []; OverrideExistingCors := false;
     AllowedMethods := []; AllowCredentials := false; MaxAge := 0;
     AllowedHeaders := []; ExposedHeaders := [] |}.

Definition exact_policy : Cors :=
  {| AllowedOrigins := ["https://app.example.com"; "https://.*\.example\.com"];
     OverrideExistingCors := true;
     AllowedMethods := ["GET"]; AllowCredentials := true; MaxAge := 0;
     AllowedHeaders := []; ExposedHeaders := ["X-Total"; "X-Page"] |}.

Definition subdomain_policy : Cors :=
  {| AllowedOrigins := ["^https://.*\.example\.com$"]; OverrideExistingCors := true;
     AllowedMethods := ["GET"]; AllowCredentials := false; MaxAge := 5;
     AllowedHeaders := []; ExposedHeaders := [] |}.

Definition request_from (method origin : string) : http.Request :=
  {| http.Method := method; http.Header_ := {[ "Origin" := [origin] ]} |}.

(** A next handler that fails and leaves the headers alone. *)
Definition failing_handler : Handler := fun _ h => (h, Some "upstream failed").

(** * Properties *)

(** ** Library models on the inputs of the examples *)

Example canonical_lower :
  textproto.CanonicalMIMEHeaderKey "access-control-allow-origin" = "Access-Control-Allow-Origin".
Proof. reflexivity. Qed.

Example canonical_space : textproto.CanonicalMIMEHeaderKey "x y" = "x y".
Proof. reflexivity. Qed.

Example sprintf_samples :
  Sprintf_d 86400 = "86400" /\ Sprintf_d (-5) = "-5" /\ Sprintf_d 0 = "0".
Proof. repeat split; reflexivity. Qed.

Example join_sample : strings.Join ["GET"; "POST"; "PUT"] ", " = "GET, POST, PUT".
Proof. reflexivity. Qed.

Example has_suffix_samples :
  strings.HasSuffix "^a$" "$" = true /\ strings.HasSuffix "$" "a$" = false
  /\ strings.HasSuffix "" "" = true.
Proof. repeat split; reflexivity. Qed.

(** The names [ServeHTTP] uses are already canonical, so [Set] and [Get]
    address the map at the name itself. *)
Lemma cors_names_canonical k :
  In k cors_names -> textproto.CanonicalMIMEHeaderKey k = k.
Proof.
  unfold cors_names. simpl. intros Hk.
  repeat (destruct Hk as [<- | Hk]; [reflexivity |]). destruct Hk.
Qed.

(** ** [strings.Contains] with a one-byte needle *)

Lemma prefix_byte (b : ascii) (s : string) :
  String.prefix (String b EmptyString) s = true <->
  exists s', s = String b s'.
Proof.
  destruct s as [| a s']; simpl.
  - split; [discriminate | intros [? ?]; discriminate].
  - destruct (Ascii.ascii_dec b a) as [-> | Hne].
    + split; [eauto | intros _]. now destruct s'.
    + split; [discriminate | intros [? [=]]; congruence].
Qed.

Lemma Contains_byte (b : ascii) (s : string) :
  strings.Contains s (String b EmptyString) = true <->
  In b (list_ascii_of_string s).
Proof.
  induction s as [| a s' IH].
  - simpl. split; [discriminate | tauto].
  - change (strings.Contains (String a s') (String b EmptyString))
      with (String.prefix (String b EmptyString) (String a s')
            || strings.Contains s' (String b EmptyString)).
    rewrite orb_true_iff, prefix_byte, IH. simpl. split.
    + intros [[? [=]] | ?]; subst; auto.
    + intros [-> | ?]; eauto.
Qed.

(** ** The monad *)

Lemma bind_run {S A B : Type} (m : M S A) (k : A -> M S B) (s : S) :
  bind m k s = k (m s).1 (m s).2.
Proof. reflexivity. Qed.

Lemma writes_ret {A : Type} (a : A) : writes (ret a) a id.
Proof. intros s. auto. Qed.

Lemma writes_bind {A B : Type} (m : M Exchange A) (k : A -> M Exchange B) a b f g :
  writes m a f -> writes (k a) b g -> writes (bind m k) b (fun h => g (f h)).
Proof.
  intros Hm Hk s. rewrite bind_run.
  destruct (Hm s) as (-> & Hh & Hf). destruct (Hk (m s).2) as (-> & Hh' & Hf').
  rewrite Hh', Hf', Hh, Hf. auto.
Qed.

Lemma writes_ext {A : Type} (m : M Exchange A) a f g :
  writes m a f -> (forall h, f h = g h) -> writes m a g.
Proof. intros Hm Hfg s. rewrite <- Hfg. apply Hm. Qed.

Lemma writes_log lvl msg fs : writes (logger_write lvl msg fs) tt id.
Proof. intros s. auto. Qed.

(** A step that leaves the headers alone, followed by the rest. *)
Lemma writes_seq {A B : Type} (m : M Exchange A) (k : A -> M Exchange B) a b g :
  writes m a id -> writes (k a) b g -> writes (bind m k) b g.
Proof. intros Hm Hk. exact (writes_bind m k a b id g Hm Hk). Qed.

Lemma forwards_next next r : forwards (next_ServeHTTP next r) next r id.
Proof. intros s. auto. Qed.

Lemma forwards_bind {A : Type} (m : M Exchange A) (k : A -> M Exchange error) a f g next r :
  writes m a f -> forwards (k a) next r g -> forwards (bind m k) next r (fun h => g (f h)).
Proof.
  intros Hm Hk s. rewrite bind_run.
  destruct (Hm s) as (-> & Hh & Hf). destruct (Hk (m s).2) as (-> & Hh' & Hf').
  rewrite Hh', Hf', Hh, Hf. auto.
Qed.

Lemma forwards_gets {A : Type} (p : Exchange -> A) (k : A -> M Exchange error) g next r :
  (forall a, forwards (k a) next r g) -> forwards (bind (gets p) k) next r g.
Proof. intros Hk s. rewrite bind_run. apply Hk. Qed.

(** ** The helpers of [ServeHTTP] *)

Lemma writes_setHeader c k v : writes (setHeader c k v) tt (put c k v).
Proof.
  intros s. unfold setHeader, put. rewrite bind_run.
  destruct (OverrideExistingCors c); auto.
Qed.

Lemma writes_isPreflight c r : writes (isPreflight c r) (preflight r) id.
Proof. intros s. auto. Qed.

Lemma writes_range_existing l : writes (range_existing l) tt id.
Proof.
  induction l as [| k l IH]; [apply writes_ret |].
  simpl. apply writes_seq with (a := tt); [| exact IH].
  destruct (strings.HasPrefix k "Access-Control-"); [apply writes_log | apply writes_ret].
Qed.

Section Matching_facts.

Context `{regexp.Matcher}.

Lemma writes_range_AllowedOrigins origin l :
  writes (range_AllowedOrigins origin l) (existsb (entry_admits origin) l) id.
Proof.
  induction l as [| e l IH]; [apply writes_ret |].
  simpl. unfold entry_admits at 1.
  destruct (String.eqb e "*"); [intros s; auto |].
  apply writes_seq with (a := tt); [apply writes_log |].
  rewrite orb_false_l.
  destruct (strings.HasPrefix e "^" && strings.HasSuffix e "$" && _);
    [intros s; auto |].
  rewrite orb_false_l.
  destruct (String.eqb origin e); [intros s; auto | exact IH].
Qed.

Lemma writes_shouldHandleCors c r :
  writes (shouldHandleCors c r)
    (existsb (entry_admits (http.Get (http.Header_ r) "Origin")) (AllowedOrigins c)) id.
Proof.
  unfold shouldHandleCors.
  apply writes_seq with (a := tt); [apply writes_log |].
  eapply writes_seq; [apply writes_range_AllowedOrigins |].
  destruct (existsb _ _); [apply writes_ret |].
  apply writes_seq with (a := tt); [apply writes_log | apply writes_ret].
Qed.

(** The decision of [shouldHandleCors] does not depend on the state it
    runs in. *)
Lemma shouldHandleCors_decides c r s :
  (shouldHandleCors c r s).1
  = existsb (entry_admits (http.Get (http.Header_ r) "Origin")) (AllowedOrigins c).
Proof. apply writes_shouldHandleCors. Qed.

End Matching_facts.

(** ** [ServeHTTP] and its header summary *)

Lemma writes_if {A : Type} (b : bool) (m1 m2 : M Exchange A) a f1 f2 :
  writes m1 a f1 -> writes m2 a f2 ->
  writes (if b then m1 else m2) a (if b then f1 else f2).
Proof. destruct b; auto. Qed.

Lemma forwards_if (b : bool) (m1 m2 : M Exchange error) f1 f2 next r :
  forwards m1 next r f1 -> forwards m2 next r f2 ->
  forwards (if b then m1 else m2) next r (if b then f1 else f2).
Proof. destruct b; auto. Qed.

Lemma forwards_ext (m : M Exchange error) f g next r :
  forwards m next r f -> (forall h, f h = g h) -> forwards m next r g.
Proof. intros Hm Hfg s. rewrite <- Hfg. apply Hm. Qed.

Ltac writes_steps :=
  unfold logger_Info, logger_Debug, logger_Warn;
  repeat first
    [ apply writes_ret | apply writes_log | apply writes_setHeader
    | apply writes_isPreflight | apply writes_range_existing
    | apply writes_shouldHandleCors | apply writes_if | eapply writes_bind ].

Ltac forwards_steps :=
  repeat first
    [ apply forwards_next | apply forwards_if
    | apply forwards_gets; intros ?
    | eapply forwards_bind; [ writes_steps | ] ].

Section ServeHTTP_summary.

Context `{regexp.Matcher}.

Theorem ServeHTTP_forwards c r next :
  forwards (ServeHTTP c r next) next r (headers_for c r).
Proof.
  unfold ServeHTTP. eapply forwards_ext; [forwards_steps |].
  intros h. unfold headers_for, admitted_headers, id.
  destruct (String.eqb _ ""); [reflexivity |].
  destruct (existsb _ _); [| reflexivity].
  unfold preflight.
  destruct (String.eqb (http.Method r) "OPTIONS"),
    (String.eqb (http.Get (http.Header_ r) "Access-Control-Request-Method") "");
    cbn [andb negb];
  repeat match goal with |- context [if ?b then _ else _] => destruct b end;
    reflexivity.
Qed.

End ServeHTTP_summary.

(** ** Lookups after [setHeader] *)

Lemma put_off c k v h : OverrideExistingCors c = false -> put c k v h = h.
Proof. unfold put. now intros ->. Qed.

Lemma put_lookup_ne c k v h k' :
  In k cors_names -> k <> k' -> put c k v h !! k' = h !! k'.
Proof.
  intros Hk Hne. unfold put, http.Set_. rewrite (cors_names_canonical k Hk).
  destruct (OverrideExistingCors c); [now apply lookup_insert_ne | reflexivity].
Qed.

Lemma put_lookup_eq c k v h :
  In k cors_names -> OverrideExistingCors c = true -> put c k v h !! k = Some [v].
Proof.
  intros Hk Hov. unfold put, http.Set_. rewrite Hov, (cors_names_canonical k Hk).
  apply lookup_insert_eq.
Qed.

Ltac cors_name := unfold cors_names; simpl; tauto.

Ltac put_lookups :=
  repeat first
    [ rewrite put_lookup_eq by (first [cors_name | assumption])
    | rewrite put_lookup_ne by (first [cors_name | discriminate]) ].





Lemma headers_for_override_off `{regexp.Matcher} c r h :
  OverrideExistingCors c = false -> headers_for c r h = h.
Proof.
  intros Hov. unfold headers_for, admitted_headers.
  repeat match goal with |- context [if ?b then _ else _] => destruct b end;
    rewrite ?put_off by assumption; reflexivity.
Qed.

Lemma headers_for_admitted `{regexp.Matcher} c r h s :
  http.Get (http.Header_ r) "Origin" <> "" ->
  (shouldHandleCors c r s).1 = true ->
  headers_for c r h = admitted_headers c r h.
Proof.
  intros Ho Ha. unfold headers_for. rewrite shouldHandleCors_decides in Ha.
  rewrite Ha. apply String.eqb_neq in Ho. now rewrite Ho.
Qed.

Lemma Get_missing (h : Header) k :
  h !! textproto.CanonicalMIMEHeaderKey k = None -> http.Get h k = "".
Proof. unfold http.Get. now intros ->. Qed.

(** ** Requests without an origin *)

(** C7. A request with no [Origin] header, or an empty one, reaches the next
    handler exactly once, with the response header map exactly as
    [ServeHTTP] received it (so no CORS header was added), and [ServeHTTP]
    returns what the handler returns. *)
Theorem no_origin_passes_through `{regexp.Matcher} c r next s :
  http.Header_ r !! "Origin" = None \/ http.Get (http.Header_ r) "Origin" = "" ->
  forwarded (ServeHTTP c r next s).2 = (forwarded s ++ [w_Header s])%list
  /\ length (forwarded (ServeHTTP c r next s).2) = S (length (forwarded s))
  /\ w_Header (ServeHTTP c r next s).2 = (next r (w_Header s)).1
  /\ (ServeHTTP c r next s).1 = (next r (w_Header s)).2.
Proof.
  intros Ho.
  assert (Hg : http.Get (http.Header_ r) "Origin" = "").
  { destruct Ho as [Hn | Hg]; [now apply Get_missing | exact Hg]. }
  destruct (ServeHTTP_forwards c r next s) as (Hr & Hh & Hf).
  assert (Hid : headers_for c r (w_Header s) = w_Header s).
  { unfold headers_for. now rewrite Hg. }
  rewrite Hid in Hr, Hh, Hf. rewrite Hf, length_app. simpl.
  repeat split; auto. lia.
Qed.

Lemma no_origin_passes_through_witness :
  (http.Header_ same_origin_request !! "Origin" = None
   \/ http.Get (http.Header_ same_origin_request) "Origin" = "")
  /\ forwarded (ServeHTTP (H := regexp.example) listed_policy same_origin_request
                  static_handler (exchange upstream_headers)).2
     = [upstream_headers].
Proof.
  split; [left; reflexivity |].
  apply (no_origin_passes_through (H := regexp.example) listed_policy same_origin_request
           static_handler (exchange upstream_headers)).
  left; reflexivity.
Defined.

(** ** The override flag turned off *)

(** C1. With [override_existing_cors] false, an admitted cross-origin request
    reaches the next handler once, with the response header map exactly as
    [ServeHTTP] received it: no [Access-Control-*] and no [Vary] header is
    written, whatever headers the response already had. *)
Theorem override_off_writes_nothing `{regexp.Matcher} c r next s :
  http.Get (http.Header_ r) "Origin" <> "" ->
  (shouldHandleCors c r s).1 = true ->
  OverrideExistingCors c = false ->
  forwarded (ServeHTTP c r next s).2 = (forwarded s ++ [w_Header s])%list
  /\ w_Header (ServeHTTP c r next s).2 = (next r (w_Header s)).1
  /\ (ServeHTTP c r next s).1 = (next r (w_Header s)).2.
Proof.
  intros _ _ Hov.
  destruct (ServeHTTP_forwards c r next s) as (Hr & Hh & Hf).
  rewrite headers_for_override_off in Hr, Hh, Hf by assumption. auto.
Qed.

Lemma override_off_writes_nothing_witness :
  http.Get (http.Header_ preflight_request) "Origin" <> ""
  /\ (shouldHandleCors (H := regexp.example) silent_policy preflight_request
        (exchange upstream_headers)).1 = true
  /\ OverrideExistingCors silent_policy = false
  /\ forwarded (ServeHTTP (H := regexp.example) silent_policy preflight_request
                  static_handler (exchange upstream_headers)).2
     = [upstream_headers].
Proof.
  split; [discriminate |]. split; [reflexivity |]. split; [reflexivity |].
  apply (override_off_writes_nothing (H := regexp.example) silent_policy
           preflight_request static_handler (exchange upstream_headers));
    [discriminate | reflexivity | reflexivity].
Defined.

(** ** Headers written for an admitted request *)

(** C3 (as amended). With [override_existing_cors] true, an admitted
    cross-origin request reaches the next handler with
    [Access-Control-Allow-Origin] holding exactly the request's [Origin]
    value and with [Vary] holding exactly [Access-Control-Allow-Origin]:
    [setHeader] uses [Header.Set], which replaces whatever [Vary] held. *)
Theorem allow_origin_and_vary_set `{regexp.Matcher} c r next s :
  http.Get (http.Header_ r) "Origin" <> "" ->
  (shouldHandleCors c r s).1 = true ->
  OverrideExistingCors c = true ->
  exists h',
    forwarded (ServeHTTP c r next s).2 = (forwarded s ++ [h'])%list
    /\ h' !! "Access-Control-Allow-Origin" = Some [http.Get (http.Header_ r) "Origin"]
    /\ h' !! "Vary" = Some ["Access-Control-Allow-Origin"].
Proof.
  intros Ho Ha Hov. exists (headers_for c r (w_Header s)).
  split; [apply ServeHTTP_forwards |].
  rewrite (headers_for_admitted c r _ s Ho Ha). unfold admitted_headers.
  split;
    repeat match goal with |- context [if ?b then _ else _] => destruct b end;
    put_lookups; reflexivity.
Qed.

Lemma allow_origin_and_vary_set_witness :
  http.Get (http.Header_ get_request) "Origin" <> ""
  /\ (shouldHandleCors (H := regexp.example) open_policy get_request
        (exchange ∅)).1 = true
  /\ OverrideExistingCors open_policy = true
  /\ exists h',
       forwarded (ServeHTTP (H := regexp.example) open_policy get_request
                    static_handler (exchange ∅)).2 = ([] ++ [h'])%list
       /\ h' !! "Access-Control-Allow-Origin" = Some ["http://example.com"]
       /\ h' !! "Vary" = Some ["Access-Control-Allow-Origin"].
Proof.
  split; [discriminate |]. split; [reflexivity |]. split; [reflexivity |].
  apply (allow_origin_and_vary_set (H := regexp.example) open_policy get_request
           static_handler (exchange ∅));
    [discriminate | reflexivity | reflexivity].
Defined.

(** C3 as stated fails: a [Vary] value already on the response is not kept
    next to the new one.  The request is admitted by the wildcard, the flag
    is on, the response carries [Vary: Accept-Encoding]; the next handler
    sees [Vary] with the single value [Access-Control-Allow-Origin]. *)
Lemma vary_is_replaced_not_appended :
  http.Get (http.Header_ get_request) "Origin" <> ""
  /\ (shouldHandleCors (H := regexp.example) open_policy get_request
        (exchange upstream_headers)).1 = true
  /\ OverrideExistingCors open_policy = true
  /\ upstream_headers !! "Vary" = Some ["Accept-Encoding"]
  /\ exists h',
       forwarded (ServeHTTP (H := regexp.example) open_policy get_request
                    static_handler (exchange upstream_headers)).2 = [h']
       /\ h' !! "Vary" = Some ["Access-Control-Allow-Origin"]
       /\ h' !! "Vary" <> Some ["Accept-Encoding"; "Access-Control-Allow-Origin"]
       /\ ~ In "Accept-Encoding" (default [] (h' !! "Vary")).
Proof.
  split; [discriminate |]. split; [reflexivity |]. split; [reflexivity |].
  split; [reflexivity |].
  eexists. split; [vm_compute; reflexivity |].
  split; [vm_compute; reflexivity |].
  split; [vm_compute; discriminate |].
  vm_compute. intros [Hx | []]. discriminate Hx.
Qed.



(** The three cases of C9 on concrete preflight requests. *)
Example allow_headers_samples :
  map (fun h : Header => h !! "Access-Control-Allow-Headers")
    (forwarded (ServeHTTP (H := regexp.example) open_policy preflight_request
                  static_handler (exchange ∅)).2)
  = [Some ["X-Custom"]]
  /\ map (fun h : Header => h !! "Access-Control-Allow-Headers")
       (forwarded (ServeHTTP (H := regexp.example) listed_policy preflight_request
                     static_handler (exchange ∅)).2)
     = [Some ["Content-Type, X-Token"]]
  /\ map (fun h : Header => h !! "Access-Control-Allow-Headers")
       (forwarded (ServeHTTP (H := regexp.example) bare_policy preflight_request
                     static_handler (exchange ∅)).2)
     = [None].
Proof. repeat split; vm_compute; reflexivity. Qed.

(** ** Nothing is removed *)


(** The stripping pass would have removed the two [Access-Control-*] headers
    of [upstream_headers]; [ServeHTTP] under the same policy keeps the one it
    does not set and overwrites the other. *)
Example WriteHeader_strips_ServeHTTP_does_not :
  map_to_list (w_Header (WriteHeader open_policy 200 (exchange upstream_headers)).2)
  = [("Vary", ["Accept-Encoding"])]
  /\ map (fun h : Header => (h !! "Access-Control-Allow-Private-Network",
                             h !! "Access-Control-Allow-Origin"))
       (forwarded (ServeHTTP (H := regexp.example) open_policy get_request
                     static_handler (exchange upstream_headers)).2)
     = [(Some ["true"], Some ["http://example.com"])].
Proof. split; vm_compute; reflexivity. Qed.

(** ** Preflight classification *)

(** C6. [isPreflight] answers true exactly when the method is [OPTIONS] and
    the [Access-Control-Request-Method] header has a first value that is not
    empty; in particular a request without that header is not a preflight,
    whatever its method. *)
Theorem isPreflight_iff c r s :
  ((isPreflight c r s).1 = true <->
   http.Method r = "OPTIONS"
   /\ exists v vs, http.Header_ r !! "Access-Control-Request-Method" = Some (v :: vs)
                   /\ v <> "")
  /\ (http.Header_ r !! "Access-Control-Request-Method" = None ->
      (isPreflight c r s).1 = false).
Proof.
  change ((isPreflight c r s).1) with (preflight r). unfold preflight, http.Get.
  change (textproto.CanonicalMIMEHeaderKey "Access-Control-Request-Method")
    with "Access-Control-Request-Method".
  split.
  - rewrite andb_true_iff, negb_true_iff, String.eqb_eq, String.eqb_neq.
    destruct (http.Header_ r !! "Access-Control-Request-Method") as [[| v vs] |].
    + split; [intros [_ []]; reflexivity | intros (_ & v & vs & [=] & _)].
    + split.
      * intros [Hm Hv]. split; [exact Hm |]. exists v, vs. auto.
      * intros (Hm & v' & vs' & [= <- <-] & Hv). auto.
    + split; [intros [_ []]; reflexivity | intros (_ & v & vs & [=] & _)].
  - intros ->. apply andb_false_r.
Qed.

Lemma isPreflight_iff_witness :
  http.Header_ bare_options_request !! "Access-Control-Request-Method" = None
  /\ http.Method bare_options_request = "OPTIONS"
  /\ (isPreflight open_policy bare_options_request (exchange ∅)).1 = false.
Proof.
  split; [reflexivity |]. split; [reflexivity |].
  apply (proj2 (isPreflight_iff open_policy bare_options_request (exchange ∅))).
  reflexivity.
Defined.

Example isPreflight_samples :
  (isPreflight open_policy preflight_request (exchange ∅)).1 = true
  /\ (isPreflight open_policy get_request (exchange ∅)).1 = false.
Proof. split; reflexivity. Qed.

(** ** Validation *)

Lemma Validate_error st : (Validate st).1 = check_methods (AllowedMethods (module_ st)).
Proof.
  unfold Validate. rewrite !bind_run. simpl.
  destruct (86400 <? MaxAge (module_ st)); reflexivity.
Qed.

Lemma Validate_MaxAge st :
  MaxAge (module_ (Validate st).2) = Z.min (MaxAge (module_ st)) 86400.
Proof.
  unfold Validate. rewrite !bind_run. simpl.
  destruct (Z.ltb_spec 86400 (MaxAge (module_ st))); simpl; lia.
Qed.

Lemma Provision_MaxAge st :
  MaxAge (module_ (Provision st).2)
  = if MaxAge (module_ st) =? 0 then 5 else MaxAge (module_ st).
Proof.
  destruct st as [[origins override methods credentials age headers exposed] log].
  unfold Provision. rewrite !bind_run. cbn.
  destruct (length origins =? 0)%nat; cbn;
    destruct (length methods =? 0)%nat; cbn;
    destruct (age =? 0); reflexivity.
Qed.

Lemma check_methods_error l :
  check_methods l <> None <->
  exists m, In m l /\ In ","%char (list_ascii_of_string m).
Proof.
  induction l as [| m l IH]; simpl.
  - split; [congruence | intros (? & [] & _)].
  - destruct (strings.Contains m ",") eqn:Hc.
    + split; [intros _ | discriminate].
      exists m. split; [now left | now apply Contains_byte].
    + rewrite IH. split.
      * intros (m' & Hin & Hcomma). eauto.
      * intros (m' & [<- | Hin] & Hcomma); [| eauto].
        apply Contains_byte in Hcomma.
        change (String ","%char EmptyString) with "," in Hcomma. congruence.
Qed.

(** C8. [Validate] returns an error exactly when some entry of
    [allowed_methods] contains a comma. *)
Theorem Validate_fails_iff_comma st :
  (Validate st).1 <> None <->
  exists m, In m (AllowedMethods (module_ st)) /\ In ","%char (list_ascii_of_string m).
Proof. rewrite Validate_error. apply check_methods_error. Qed.

Example Validate_samples :
  (Validate (provisioned joined_methods_policy)).1
  = Some "Cors: Allowed methods formatted incorrectly, should be a comma separated list of methods"
  /\ (Validate (provisioned open_policy)).1 = None
  /\ (Validate (Provision (provisioned long_age_policy)).2).1 = None.
Proof. repeat split; reflexivity. Qed.

(** C2 (as amended). When the configured [max_age] is not negative,
    [Validate] leaves it within [0, 86400], alone or after [Provision]; a
    value above 86400 becomes 86400, and the error [Validate] returns does not
    depend on [max_age].  When the configured [max_age] is negative, whatever
    its value, [Provision] and [Validate] leave it unchanged, each alone and
    one after the other. *)
Theorem Validate_max_age_bounds st :
  (0 <= MaxAge (module_ st) ->
   0 <= MaxAge (module_ (Validate st).2) <= 86400
   /\ MaxAge (module_ (Validate st).2) = Z.min (MaxAge (module_ st)) 86400
   /\ (Validate st).1 = check_methods (AllowedMethods (module_ st))
   /\ 0 <= MaxAge (module_ (Validate (Provision st).2).2) <= 86400)
  /\ (MaxAge (module_ st) < 0 ->
      MaxAge (module_ (Provision st).2) = MaxAge (module_ st)
      /\ MaxAge (module_ (Validate st).2) = MaxAge (module_ st)
      /\ MaxAge (module_ (Validate (Provision st).2).2) = MaxAge (module_ st)
      /\ (Validate st).1 = check_methods (AllowedMethods (module_ st))).
Proof.
  rewrite !Validate_MaxAge, Provision_MaxAge, Validate_error.
  split; intros Hsign;
    destruct (Z.eqb_spec (MaxAge (module_ st)) 0); repeat split; lia.
Qed.

Lemma Validate_max_age_bounds_witness :
  (0 <= MaxAge (module_ (provisioned long_age_policy))
   /\ MaxAge (module_ (Validate (provisioned long_age_policy)).2) = 86400
   /\ (Validate (provisioned long_age_policy)).1 = None)
  /\ (MaxAge (module_ (provisioned (set_MaxAge (-7200) listed_policy))) < 0
      /\ MaxAge (module_ (Validate (Provision
            (provisioned (set_MaxAge (-7200) listed_policy))).2).2) = -7200).
Proof.
  split.
  - split; [vm_compute; discriminate |].
    destruct (proj1 (Validate_max_age_bounds (provisioned long_age_policy)))
      as (_ & Hmin & Herr & _); [vm_compute; discriminate |].
    split; [rewrite Hmin; reflexivity | rewrite Herr; reflexivity].
  - split; [reflexivity |].
    destruct (proj2 (Validate_max_age_bounds
                       (provisioned (set_MaxAge (-7200) listed_policy))))
      as (_ & _ & Hboth & _); [reflexivity |].
    rewrite Hboth. reflexivity.
Defined.

(** C2 as stated fails below zero: a negative [max_age] goes through
    [Provision] and [Validate] unchanged and without an error. *)
Lemma negative_max_age_survives_validation :
  MaxAge negative_age_policy = -1
  /\ (Provision (provisioned negative_age_policy)).1 = None
  /\ (Validate (Provision (provisioned negative_age_policy)).2).1 = None
  /\ MaxAge (module_ (Validate (Provision (provisioned negative_age_policy)).2).2) = -1
  /\ ~ (0 <= MaxAge (module_ (Validate (Provision (provisioned negative_age_policy)).2).2)
        <= 86400).
Proof.
  repeat split; try reflexivity.
  change (MaxAge (module_ (Validate (Provision (provisioned negative_age_policy)).2).2))
    with (-1). lia.
Qed.

(** ** Origin matching *)

Section Origin_matching.

Context `{regexp.Matcher}.

(** An admitting entry ends the loop: what follows it is never examined. *)
Lemma range_AllowedOrigins_stops origin l1 e l2 s :
  entry_admits origin e = true ->
  range_AllowedOrigins origin (l1 ++ e :: l2) s
  = range_AllowedOrigins origin (l1 ++ [e]) s.
Proof.
  intros He. revert s. induction l1 as [| a l1 IH]; intros s; simpl.
  - unfold entry_admits in He.
    destruct (String.eqb e "*"); [reflexivity |].
    rewrite bind_run.
    destruct (strings.HasPrefix e "^" && strings.HasSuffix e "$" && _);
      [reflexivity |].
    destruct (String.eqb origin e); [reflexivity | discriminate].
  - destruct (String.eqb a "*"); [reflexivity |].
    rewrite !bind_run.
    destruct (strings.HasPrefix a "^" && strings.HasSuffix a "$" && _);
      [reflexivity |].
    destruct (String.eqb origin a); [reflexivity | apply IH].
Qed.

(** A delimited pattern that does not compile admits only its own text. *)
Lemma entry_admits_malformed origin p e :
  strings.HasPrefix p "^" = true ->
  (regexp.MatchString p origin).2 = Some e ->
  entry_admits origin p = String.eqb origin p.
Proof.
  intros Hpre Herr. unfold entry_admits.
  destruct (regexp.MatchString p origin) as [matched err]. simpl in Herr. subst err.
  rewrite andb_false_r, orb_false_r.
  apply (prefix_byte "^"%char) in Hpre. destruct Hpre as [p' ->]. reflexivity.
Qed.

End Origin_matching.

(** C5. A policy whose [allowed_origins] holds [*] at any position admits
    every origin.  In general the entries are tried in configured order and
    the first one that admits the origin (as the wildcard, as a regular
    expression or by equality) ends the run with true, the entries after it
    being never examined; when no entry admits it the answer is false. *)
Theorem wildcard_anywhere_and_first_match `{regexp.Matcher} c r s :
  (In "*" (AllowedOrigins c) -> (shouldHandleCors c r s).1 = true)
  /\ (forall l1 e l2,
        AllowedOrigins c = (l1 ++ e :: l2)%list ->
        entry_admits (http.Get (http.Header_ r) "Origin") e = true ->
        (forall e', In e' l1 ->
                    entry_admits (http.Get (http.Header_ r) "Origin") e' = false) ->
        (shouldHandleCors c r s).1 = true
        /\ shouldHandleCors c r s
           = shouldHandleCors (set_AllowedOrigins (l1 ++ [e]) c) r s)
  /\ ((forall e, In e (AllowedOrigins c) ->
                 entry_admits (http.Get (http.Header_ r) "Origin") e = false) ->
      (shouldHandleCors c r s).1 = false).
Proof.
  rewrite shouldHandleCors_decides. split; [| split].
  - intros Hin. apply existsb_exists. exists "*". split; [exact Hin | reflexivity].
  - intros l1 e l2 Hl He _. split.
    + apply existsb_exists. exists e. split; [| exact He].
      rewrite Hl. apply in_or_app. right. now left.
    + unfold shouldHandleCors. simpl AllowedOrigins. rewrite Hl, !bind_run.
      now rewrite range_AllowedOrigins_stops.
  - intros Hnone. apply not_true_is_false. intros Hex.
    apply existsb_exists in Hex. destruct Hex as (e & Hin & He).
    rewrite (Hnone e Hin) in He. discriminate.
Qed.

Lemma wildcard_anywhere_and_first_match_witness :
  In "*" (AllowedOrigins listed_policy)
  /\ (shouldHandleCors (H := regexp.example) listed_policy odd_origin_request
        (exchange ∅)).1 = true.
Proof.
  split; [right; left; reflexivity |].
  apply (proj1 (wildcard_anywhere_and_first_match (H := regexp.example) listed_policy
                  odd_origin_request (exchange ∅))).
  right; left; reflexivity.
Defined.

(** The specification's scenario 2 on the example matcher, and an exact entry
    placed before the wildcard. *)
Example origin_matching_samples :
  let regex_policy :=
    set_AllowedOrigins ["^https://.*\.example\.com$"; "https://other.example"] open_policy in
  let from origin :=
    {| http.Method := "GET"; http.Header_ := {[ "Origin" := [origin] ]} |} in
  (shouldHandleCors (H := regexp.example) regex_policy (from "https://api.example.com")
     (exchange ∅)).1 = true
  /\ (shouldHandleCors (H := regexp.example) regex_policy (from "https://example.org")
        (exchange ∅)).1 = false
  /\ (shouldHandleCors (H := regexp.example) regex_policy (from "https://other.example")
        (exchange ∅)).1 = true
  /\ map zap.message
       (request_log (shouldHandleCors (H := regexp.example) listed_policy
                       (from "https://app.example.com") (exchange ∅)).2)
     = ["Cors: Checking if should handle cors";
        "Cors: Checking if allowed origin is regex";
        "Cors: Allowed origin matches"].
Proof. repeat split; vm_compute; reflexivity. Qed.

(** C4 (as amended). An entry delimited by [^] and [$] whose pattern does not
    compile raises nothing and never admits an origin as a regular
    expression: the policy decides as it would without that entry, except
    that the origin equal to the pattern text itself is admitted by the
    equality test of the same iteration.  For any other origin the loop moves
    on to the next entry, having only logged that it examined this one. *)
Theorem malformed_regex_entry_skipped `{regexp.Matcher} c r s l1 p l2 e :
  AllowedOrigins c = (l1 ++ p :: l2)%list ->
  strings.HasPrefix p "^" = true ->
  strings.HasSuffix p "$" = true ->
  (regexp.MatchString p (http.Get (http.Header_ r) "Origin")).2 = Some e ->
  (shouldHandleCors c r s).1
  = String.eqb (http.Get (http.Header_ r) "Origin") p
    || (shouldHandleCors (set_AllowedOrigins (l1 ++ l2) c) r s).1
  /\ (http.Get (http.Header_ r) "Origin" <> p ->
      forall s',
        range_AllowedOrigins (http.Get (http.Header_ r) "Origin") (p :: l2) s'
        = range_AllowedOrigins (http.Get (http.Header_ r) "Origin") l2
            (emit {| zap.level := zap.InfoLevel;
                     zap.message := "Cors: Checking if allowed origin is regex";
                     zap.fields := [] |} s')).
Proof.
  intros Hl Hpre Hsuf Herr.
  pose proof (entry_admits_malformed _ p e Hpre Herr) as Hadm.
  split.
  - rewrite !shouldHandleCors_decides. simpl AllowedOrigins. rewrite Hl.
    rewrite !existsb_app. simpl existsb. rewrite Hadm.
    destruct (existsb _ l1), (String.eqb _ p), (existsb _ l2); reflexivity.
  - intros Hne s'. apply String.eqb_neq in Hne. rewrite Hne in Hadm.
    unfold entry_admits in Hadm. simpl.
    destruct (String.eqb p "*"); [discriminate |].
    rewrite bind_run. rewrite orb_false_l in Hadm.
    apply orb_false_iff in Hadm. destruct Hadm as [Hre _].
    rewrite Hre, Hne. reflexivity.
Qed.

Lemma malformed_regex_entry_skipped_witness :
  AllowedOrigins broken_regex_policy = ([] ++ "^($" :: [])%list
  /\ strings.HasPrefix "^($" "^" = true
  /\ strings.HasSuffix "^($" "$" = true
  /\ (regexp.example "^($" (http.Get (http.Header_ get_request) "Origin")).2
     = Some "error parsing regexp: missing closing ): `^($`"
  /\ (shouldHandleCors (H := regexp.example) broken_regex_policy get_request
        (exchange ∅)).1 = false.
Proof.
  split; [reflexivity |]. split; [reflexivity |]. split; [reflexivity |].
  split; [reflexivity |].
  rewrite (proj1 (malformed_regex_entry_skipped (H := regexp.example)
                    broken_regex_policy get_request (exchange ∅) [] "^($" []
                    "error parsing regexp: missing closing ): `^($`"
                    eq_refl eq_refl eq_refl eq_refl)).
  reflexivity.
Defined.

(** C4 as stated fails for one origin: the pattern [^($] is delimited and does
    not compile, it is the only entry, and the request whose [Origin] is the
    pattern text is admitted, while the policy without the entry admits
    nothing. *)
Lemma malformed_regex_entry_admits_its_own_text :
  AllowedOrigins broken_regex_policy = ["^($"]
  /\ strings.HasPrefix "^($" "^" = true
  /\ strings.HasSuffix "^($" "$" = true
  /\ http.Get (http.Header_ odd_origin_request) "Origin" = "^($"
  /\ (regexp.example "^($" "^($").2 <> None
  /\ (shouldHandleCors (H := regexp.example) broken_regex_policy odd_origin_request
        (exchange ∅)).1 = true
  /\ (shouldHandleCors (H := regexp.example) (set_AllowedOrigins [] broken_regex_policy)
        odd_origin_request (exchange ∅)).1 = false.
Proof. repeat split; try reflexivity. discriminate. Qed.

(** * Further properties of the module *)

(** ** Start-up: [Provision] and [Validate] *)

Lemma Provision_module st :
  module_ (Provision st).2
  = set_MaxAge (if MaxAge (module_ st) =? 0 then 5 else MaxAge (module_ st))
      (set_AllowedMethods
         (if (length (AllowedMethods (module_ st)) =? 0)%nat
          then ["GET"; "POST"; "PUT"; "DELETE"; "PATCH"; "OPTIONS"]
          else AllowedMethods (module_ st))
         (set_AllowedOrigins
            (if (length (AllowedOrigins (module_ st)) =? 0)%nat
             then ["*"] else AllowedOrigins (module_ st))
            (module_ st))).
Proof.
  destruct st as [[origins override methods credentials age headers exposed] log].
  unfold Provision. rewrite !bind_run. cbn.
  destruct (length origins =? 0)%nat; cbn;
    destruct (length methods =? 0)%nat; cbn;
    destruct (age =? 0); reflexivity.
Qed.

Lemma Validate_module st :
  module_ (Validate st).2 = set_MaxAge (Z.min (MaxAge (module_ st)) 86400) (module_ st).
Proof.
  destruct st as [[origins override methods credentials age headers exposed] log].
  unfold Validate. rewrite !bind_run. cbn.
  destruct (Z.ltb_spec 86400 age); cbn; unfold set_MaxAge; cbn; f_equal; lia.
Qed.

Lemma Provision_result_configured st :
  AllowedOrigins (module_ (Provision st).2) <> []
  /\ AllowedMethods (module_ (Provision st).2) <> []
  /\ MaxAge (module_ (Provision st).2) <> 0.
Proof.
  rewrite Provision_module. cbn. split; [| split].
  - destruct (AllowedOrigins (module_ st)); cbn; discriminate.
  - destruct (AllowedMethods (module_ st)); cbn; discriminate.
  - destruct (Z.eqb_spec (MaxAge (module_ st)) 0); [discriminate | assumption].
Qed.

Lemma Provision_configured st :
  AllowedOrigins (module_ st) <> [] ->
  AllowedMethods (module_ st) <> [] ->
  MaxAge (module_ st) <> 0 ->
  module_ (Provision st).2 = module_ st.
Proof.
  intros Ho Hm Ha. rewrite Provision_module.
  destruct (module_ st) as [origins override methods credentials age headers exposed].
  cbn in *. destruct origins; [congruence |]. destruct methods; [congruence |].
  apply Z.eqb_neq in Ha. rewrite Ha. reflexivity.
Qed.

(** X1. [Provision] never fails and leaves a module with at least one allowed
    origin, at least one allowed method and a [max_age] other than zero; the
    two flags and the two header lists are as configured. *)
Theorem Provision_fills_defaults st :
  (Provision st).1 = None
  /\ AllowedOrigins (module_ (Provision st).2) <> []
  /\ AllowedMethods (module_ (Provision st).2) <> []
  /\ MaxAge (module_ (Provision st).2) <> 0
  /\ OverrideExistingCors (module_ (Provision st).2) = OverrideExistingCors (module_ st)
  /\ AllowCredentials (module_ (Provision st).2) = AllowCredentials (module_ st)
  /\ AllowedHeaders (module_ (Provision st).2) = AllowedHeaders (module_ st)
  /\ ExposedHeaders (module_ (Provision st).2) = ExposedHeaders (module_ st).
Proof.
  split; [reflexivity |].
  destruct (Provision_result_configured st) as (Ho & Hm & Ha).
  repeat (split; [assumption |]).
  rewrite Provision_module. repeat split.
Qed.

(** X2. A module whose origins, methods and [max_age] are all configured goes
    through [Provision] unchanged and without error. *)
Theorem Provision_keeps_configured st :
  AllowedOrigins (module_ st) <> [] ->
  AllowedMethods (module_ st) <> [] ->
  MaxAge (module_ st) <> 0 ->
  (Provision st).1 = None /\ module_ (Provision st).2 = module_ st.
Proof.
  intros Ho Hm Ha. split; [reflexivity |]. now apply Provision_configured.
Qed.

Lemma Provision_keeps_configured_witness :
  AllowedOrigins (module_ (provisioned listed_policy)) <> []
  /\ AllowedMethods (module_ (provisioned listed_policy)) <> []
  /\ MaxAge (module_ (provisioned listed_policy)) <> 0
  /\ module_ (Provision (provisioned listed_policy)).2 = listed_policy.
Proof.
  split; [discriminate |]. split; [discriminate |]. split; [discriminate |].
  apply (proj2 (Provision_keeps_configured (provisioned listed_policy)
                  ltac:(discriminate) ltac:(discriminate) ltac:(discriminate))).
Defined.

(** X3. Provisioning twice configures the module as provisioning once. *)
Theorem Provision_idempotent st :
  module_ (Provision (Provision st).2).2 = module_ (Provision st).2.
Proof.
  destruct (Provision_result_configured st) as (Ho & Hm & Ha).
  now apply Provision_configured.
Qed.

(** X4. [Validate] changes no field other than [max_age], and validating
    twice gives the module and the answer of validating once. *)
Theorem Validate_frame_and_idempotent st :
  set_MaxAge (MaxAge (module_ st)) (module_ (Validate st).2) = module_ st
  /\ module_ (Validate (Validate st).2).2 = module_ (Validate st).2
  /\ (Validate (Validate st).2).1 = (Validate st).1.
Proof.
  rewrite !Validate_error, !Validate_module.
  destruct (module_ st) as [origins override methods credentials age headers exposed].
  unfold set_MaxAge. cbn. repeat split. f_equal. lia.
Qed.

(** X5. A configuration that names no origin admits every origin once
    provisioned, whatever the regular-expression library answers. *)
Theorem default_origins_admit_all `{regexp.Matcher} st r s :
  AllowedOrigins (module_ st) = [] ->
  (shouldHandleCors (module_ (Validate (Provision st).2).2) r s).1 = true.
Proof.
  intros Ho. rewrite shouldHandleCors_decides, Validate_module, Provision_module.
  cbn. rewrite Ho. reflexivity.
Qed.

Lemma default_origins_admit_all_witness :
  AllowedOrigins (module_ (provisioned empty_policy)) = []
  /\ (shouldHandleCors (H := regexp.example)
        (module_ (Validate (Provision (provisioned empty_policy)).2).2)
        odd_origin_request (exchange ∅)).1 = true.
Proof.
  split; [reflexivity |].
  apply (default_origins_admit_all (H := regexp.example) (provisioned empty_policy)).
  reflexivity.
Defined.

(** ** Requests: what [ServeHTTP] always does *)

(** X6. Whatever the policy and the request, a preflight included,
    [ServeHTTP] calls the next handler exactly once, hands the handler's
    header map on, and returns the handler's error or [nil] unchanged. *)
Theorem ServeHTTP_always_forwards `{regexp.Matcher} c r next s :
  exists h',
    forwarded (ServeHTTP c r next s).2 = (forwarded s ++ [h'])%list
    /\ (ServeHTTP c r next s).1 = (next r h').2
    /\ w_Header (ServeHTTP c r next s).2 = (next r h').1.
Proof.
  exists (headers_for c r (w_Header s)).
  destruct (ServeHTTP_forwards c r next s) as (Hr & Hh & Hf). auto.
Qed.

Example ServeHTTP_returns_the_handler_error :
  (ServeHTTP (H := regexp.example) open_policy preflight_request failing_handler
     (exchange ∅)).1 = Some "upstream failed".
Proof. reflexivity. Qed.

(** X7. A cross-origin request whose origin no entry admits reaches the next
    handler with the response header map unchanged, even with
    [override_existing_cors] true. *)
Theorem not_admitted_writes_nothing `{regexp.Matcher} c r next s :
  (shouldHandleCors c r s).1 = false ->
  forwarded (ServeHTTP c r next s).2 = (forwarded s ++ [w_Header s])%list.
Proof.
  intros Ha. destruct (ServeHTTP_forwards c r next s) as (_ & _ & ->).
  unfold headers_for. rewrite shouldHandleCors_decides in Ha. rewrite Ha.
  now destruct (String.eqb _ "").
Qed.

Lemma not_admitted_writes_nothing_witness :
  (shouldHandleCors (H := regexp.example) subdomain_policy
     (request_from "GET" "https://example.org") (exchange upstream_headers)).1 = false
  /\ forwarded (ServeHTTP (H := regexp.example) subdomain_policy
                  (request_from "GET" "https://example.org") static_handler
                  (exchange upstream_headers)).2
     = [upstream_headers].
Proof.
  split; [reflexivity |].
  apply (not_admitted_writes_nothing (H := regexp.example) subdomain_policy
           (request_from "GET" "https://example.org") static_handler
           (exchange upstream_headers)).
  reflexivity.
Defined.

(** ** Requests: the headers of each branch *)

(** The header map an admitted request is forwarded with. *)
Lemma admitted_forwarded `{regexp.Matcher} c r next s :
  http.Get (http.Header_ r) "Origin" <> "" ->
  (shouldHandleCors c r s).1 = true ->
  forwarded (ServeHTTP c r next s).2
  = (forwarded s ++ [admitted_headers c r (w_Header s)])%list.
Proof.
  intros Ho Ha. destruct (ServeHTTP_forwards c r next s) as (_ & _ & ->).
  now rewrite (headers_for_admitted c r _ s Ho Ha).
Qed.

(** X8. With [override_existing_cors] true, an admitted preflight request is
    forwarded with [Access-Control-Allow-Methods] holding the configured
    methods joined by [", "]. *)
Theorem preflight_allow_methods `{regexp.Matcher} c r next s :
  http.Get (http.Header_ r) "Origin" <> "" ->
  (shouldHandleCors c r s).1 = true ->
  (isPreflight c r s).1 = true ->
  OverrideExistingCors c = true ->
  exists h',
    forwarded (ServeHTTP c r next s).2 = (forwarded s ++ [h'])%list
    /\ h' !! "Access-Control-Allow-Methods" = Some [strings.Join (AllowedMethods c) ", "].
Proof.
  intros Ho Ha Hp Hov. eexists. split; [now apply admitted_forwarded |].
  change ((isPreflight c r s).1) with (preflight r) in Hp.
  unfold admitted_headers. rewrite Hp.
  repeat match goal with |- context [if ?b then _ else _] => destruct b end;
    put_lookups; reflexivity.
Qed.

Lemma preflight_allow_methods_witness :
  http.Get (http.Header_ preflight_request) "Origin" <> ""
  /\ (shouldHandleCors (H := regexp.example) listed_policy preflight_request
        (exchange upstream_headers)).1 = true
  /\ (isPreflight listed_policy preflight_request (exchange upstream_headers)).1 = true
  /\ OverrideExistingCors listed_policy = true
  /\ exists h',
       forwarded (ServeHTTP (H := regexp.example) listed_policy preflight_request
                    static_handler (exchange upstream_headers)).2 = ([] ++ [h'])%list
       /\ h' !! "Access-Control-Allow-Methods" = Some ["GET, POST"].
Proof.
  split; [discriminate |]. split; [reflexivity |]. split; [reflexivity |].
  split; [reflexivity |].
  apply (preflight_allow_methods (H := regexp.example) listed_policy preflight_request
           static_handler (exchange upstream_headers));
    [discriminate | reflexivity | reflexivity | reflexivity].
Defined.

Lemma admitted_headers_max_age c r h :
  preflight r = true ->
  OverrideExistingCors c = true ->
  0 < MaxAge c ->
  admitted_headers c r h !! "Access-Control-Max-Age" = Some [Sprintf_d (MaxAge c)].
Proof.
  intros Hp Hov Hage. unfold admitted_headers. rewrite Hp.
  apply Z.ltb_lt in Hage. rewrite Hage.
  repeat match goal with |- context [if ?b then _ else _] => destruct b end;
    put_lookups; reflexivity.
Qed.

(** X9. With [override_existing_cors] true, an admitted preflight request is
    forwarded with [Access-Control-Max-Age] holding [max_age] in decimal when
    [max_age] is positive; when it is zero or negative the header keeps
    whatever the response held. *)
Theorem preflight_max_age `{regexp.Matcher} c r next s :
  http.Get (http.Header_ r) "Origin" <> "" ->
  (shouldHandleCors c r s).1 = true ->
  (isPreflight c r s).1 = true ->
  OverrideExistingCors c = true ->
  exists h',
    forwarded (ServeHTTP c r next s).2 = (forwarded s ++ [h'])%list
    /\ (0 < MaxAge c -> h' !! "Access-Control-Max-Age" = Some [Sprintf_d (MaxAge c)])
    /\ (MaxAge c <= 0 ->
        h' !! "Access-Control-Max-Age" = w_Header s !! "Access-Control-Max-Age").
Proof.
  intros Ho Ha Hp Hov. eexists. split; [now apply admitted_forwarded |].
  change ((isPreflight c r s).1) with (preflight r) in Hp.
  split; intros Hage; [now apply admitted_headers_max_age |].
  unfold admitted_headers. rewrite Hp.
  assert (Hf : (0 <? MaxAge c) = false) by (apply Z.ltb_ge; exact Hage). rewrite Hf.
  repeat match goal with |- context [if ?b then _ else _] => destruct b end;
    put_lookups; reflexivity.
Qed.

Lemma preflight_max_age_witness :
  http.Get (http.Header_ preflight_request) "Origin" <> ""
  /\ (shouldHandleCors (H := regexp.example) listed_policy preflight_request
        (exchange ∅)).1 = true
  /\ (isPreflight listed_policy preflight_request (exchange ∅)).1 = true
  /\ OverrideExistingCors listed_policy = true
  /\ 0 < MaxAge listed_policy
  /\ exists h',
       forwarded (ServeHTTP (H := regexp.example) listed_policy preflight_request
                    static_handler (exchange ∅)).2 = ([] ++ [h'])%list
       /\ h' !! "Access-Control-Max-Age" = Some ["600"].
Proof.
  split; [discriminate |]. split; [reflexivity |]. split; [reflexivity |].
  split; [reflexivity |]. split; [reflexivity |].
  destruct (preflight_max_age (H := regexp.example) listed_policy preflight_request
              static_handler (exchange ∅))
    as (h' & Hf & Hpos & _); [discriminate | reflexivity | reflexivity | reflexivity |].
  exists h'. split; [exact Hf |]. apply Hpos. reflexivity.
Defined.

(** X10. A request that is admitted but is not a preflight is forwarded with
    [Access-Control-Expose-Headers] holding the configured list joined by
    [", "] when the flag is on and the list is not empty, and with the three
    preflight headers as the response held them. *)
Theorem simple_request_headers `{regexp.Matcher} c r next s :
  http.Get (http.Header_ r) "Origin" <> "" ->
  (shouldHandleCors c r s).1 = true ->
  (isPreflight c r s).1 = false ->
  exists h',
    forwarded (ServeHTTP c r next s).2 = (forwarded s ++ [h'])%list
    /\ (OverrideExistingCors c = true -> ExposedHeaders c <> [] ->
        h' !! "Access-Control-Expose-Headers"
        = Some [strings.Join (ExposedHeaders c) ", "])
    /\ h' !! "Access-Control-Allow-Methods" = w_Header s !! "Access-Control-Allow-Methods"
    /\ h' !! "Access-Control-Allow-Headers" = w_Header s !! "Access-Control-Allow-Headers"
    /\ h' !! "Access-Control-Max-Age" = w_Header s !! "Access-Control-Max-Age".
Proof.
  intros Ho Ha Hp. eexists. split; [now apply admitted_forwarded |].
  change ((isPreflight c r s).1) with (preflight r) in Hp.
  unfold admitted_headers. rewrite Hp.
  split;
    [| repeat split;
       (repeat match goal with |- context [if ?b then _ else _] => destruct b end);
       put_lookups; reflexivity].
  intros Hov Hne. destruct (ExposedHeaders c) as [| e l]; [congruence |].
  change (0 <? length (e :: l))%nat with true.
  repeat match goal with |- context [if ?b then _ else _] => destruct b end;
    put_lookups; reflexivity.
Qed.

Lemma simple_request_headers_witness :
  http.Get (http.Header_ get_request) "Origin" <> ""
  /\ (shouldHandleCors (H := regexp.example) listed_policy get_request
        (exchange ∅)).1 = true
  /\ (isPreflight listed_policy get_request (exchange ∅)).1 = false
  /\ OverrideExistingCors listed_policy = true
  /\ ExposedHeaders listed_policy <> []
  /\ exists h',
       forwarded (ServeHTTP (H := regexp.example) listed_policy get_request
                    static_handler (exchange ∅)).2 = ([] ++ [h'])%list
       /\ h' !! "Access-Control-Expose-Headers" = Some ["X-Total"]
       /\ h' !! "Access-Control-Allow-Methods" = None.
Proof.
  split; [discriminate |]. split; [reflexivity |]. split; [reflexivity |].
  split; [reflexivity |]. split; [discriminate |].
  destruct (simple_request_headers (H := regexp.example) listed_policy get_request
              static_handler (exchange ∅))
    as (h' & Hf & Hexp & Hm & _); [discriminate | reflexivity | reflexivity |].
  exists h'. split; [exact Hf |]. split; [apply Hexp; [reflexivity | discriminate] |].
  rewrite Hm. reflexivity.
Defined.

(** X11. An admitted preflight request is forwarded with
    [Access-Control-Expose-Headers] as the response held it: that header is
    only written for requests that are not preflights. *)
Theorem preflight_leaves_expose_headers `{regexp.Matcher} c r next s :
  http.Get (http.Header_ r) "Origin" <> "" ->
  (shouldHandleCors c r s).1 = true ->
  (isPreflight c r s).1 = true ->
  exists h',
    forwarded (ServeHTTP c r next s).2 = (forwarded s ++ [h'])%list
    /\ h' !! "Access-Control-Expose-Headers"
       = w_Header s !! "Access-Control-Expose-Headers".
Proof.
  intros Ho Ha Hp. eexists. split; [now apply admitted_forwarded |].
  change ((isPreflight c r s).1) with (preflight r) in Hp.
  unfold admitted_headers. rewrite Hp.
  repeat match goal with |- context [if ?b then _ else _] => destruct b end;
    put_lookups; reflexivity.
Qed.

Lemma preflight_leaves_expose_headers_witness :
  http.Get (http.Header_ preflight_request) "Origin" <> ""
  /\ (shouldHandleCors (H := regexp.example) listed_policy preflight_request
        (exchange ∅)).1 = true
  /\ (isPreflight listed_policy preflight_request (exchange ∅)).1 = true
  /\ exists h',
       forwarded (ServeHTTP (H := regexp.example) listed_policy preflight_request
                    static_handler (exchange ∅)).2 = ([] ++ [h'])%list
       /\ h' !! "Access-Control-Expose-Headers" = None.
Proof.
  split; [discriminate |]. split; [reflexivity |]. split; [reflexivity |].
  destruct (preflight_leaves_expose_headers (H := regexp.example) listed_policy
              preflight_request static_handler (exchange ∅))
    as (h' & Hf & Hexp); [discriminate | reflexivity | reflexivity |].
  exists h'. split; [exact Hf |]. rewrite Hexp. reflexivity.
Defined.

(** X12. An admitted request, preflight or not, is forwarded with
    [Access-Control-Allow-Credentials] holding ["true"] when both
    [allow_credentials] and [override_existing_cors] are true, and as the
    response held it when [allow_credentials] is false. *)
Theorem allow_credentials_header `{regexp.Matcher} c r next s :
  http.Get (http.Header_ r) "Origin" <> "" ->
  (shouldHandleCors c r s).1 = true ->
  exists h',
    forwarded (ServeHTTP c r next s).2 = (forwarded s ++ [h'])%list
    /\ (AllowCredentials c = true -> OverrideExistingCors c = true ->
        h' !! "Access-Control-Allow-Credentials" = Some ["true"])
    /\ (AllowCredentials c = false ->
        h' !! "Access-Control-Allow-Credentials"
        = w_Header s !! "Access-Control-Allow-Credentials").
Proof.
  intros Ho Ha. eexists. split; [now apply admitted_forwarded |].
  unfold admitted_headers. split.
  - intros Hc Hov. rewrite Hc. put_lookups. reflexivity.
  - intros Hc. rewrite Hc.
    repeat match goal with |- context [if ?b then _ else _] => destruct b end;
      put_lookups; reflexivity.
Qed.

Lemma allow_credentials_header_witness :
  http.Get (http.Header_ get_request) "Origin" <> ""
  /\ (shouldHandleCors (H := regexp.example) listed_policy get_request
        (exchange ∅)).1 = true
  /\ AllowCredentials listed_policy = true
  /\ OverrideExistingCors listed_policy = true
  /\ exists h',
       forwarded (ServeHTTP (H := regexp.example) listed_policy get_request
                    static_handler (exchange ∅)).2 = ([] ++ [h'])%list
       /\ h' !! "Access-Control-Allow-Credentials" = Some ["true"].
Proof.
  split; [discriminate |]. split; [reflexivity |]. split; [reflexivity |].
  split; [reflexivity |].
  destruct (allow_credentials_header (H := regexp.example) listed_policy get_request
              static_handler (exchange ∅))
    as (h' & Hf & Hon & _); [discriminate | reflexivity |].
  exists h'. split; [exact Hf |]. apply Hon; reflexivity.
Defined.

(** ** Requests: independence from the response, and running twice *)

Lemma overwrites_id : overwrites (fun h => h).
Proof. intros h h' k. now left. Qed.

Lemma overwrites_put c k v f :
  In k cors_names -> overwrites f -> overwrites (fun h => put c k v (f h)).
Proof.
  intros Hk Hf h h' k'. destruct (OverrideExistingCors c) eqn:Hov.
  - destruct (decide (k = k')) as [<- | Hne].
    + right. now rewrite !put_lookup_eq.
    + rewrite !put_lookup_ne by assumption. apply Hf.
  - rewrite !put_off by assumption. apply Hf.
Qed.

Lemma overwrites_headers_for `{regexp.Matcher} c r : overwrites (headers_for c r).
Proof.
  unfold headers_for, admitted_headers.
  repeat match goal with |- context [if ?b then _ else _] => destruct b end;
    repeat (apply overwrites_put; [cors_name |]); apply overwrites_id.
Qed.

Lemma headers_for_idempotent `{regexp.Matcher} c r h :
  headers_for c r (headers_for c r h) = headers_for c r h.
Proof.
  apply map_eq. intros k.
  destruct (overwrites_headers_for c r h (headers_for c r h) k) as [[_ Hk] | Hk];
    [exact Hk | symmetry; exact Hk].
Qed.

(** X13. What [ServeHTTP] writes under a header name does not depend on what
    the response holds: started on two different response header maps, the
    maps it forwards either agree at a name or each keep what they held
    there. *)
Theorem ServeHTTP_writes_independent_of_response `{regexp.Matcher} c r next s1 s2 :
  exists h1 h2,
    forwarded (ServeHTTP c r next s1).2 = (forwarded s1 ++ [h1])%list
    /\ forwarded (ServeHTTP c r next s2).2 = (forwarded s2 ++ [h2])%list
    /\ forall k, (h1 !! k = w_Header s1 !! k /\ h2 !! k = w_Header s2 !! k)
                 \/ h1 !! k = h2 !! k.
Proof.
  exists (headers_for c r (w_Header s1)), (headers_for c r (w_Header s2)).
  split; [apply ServeHTTP_forwards |]. split; [apply ServeHTTP_forwards |].
  intros k. apply overwrites_headers_for.
Qed.

(** X14. Running [ServeHTTP] a second time on the same request, in front of a
    handler that leaves the headers alone, forwards the header map of the
    first run again: the headers are set, not accumulated. *)
Theorem ServeHTTP_twice `{regexp.Matcher} c r next s :
  (forall h, (next r h).1 = h) ->
  exists h',
    forwarded (ServeHTTP c r next s).2 = (forwarded s ++ [h'])%list
    /\ forwarded (ServeHTTP c r next (ServeHTTP c r next s).2).2
       = (forwarded s ++ [h'; h'])%list.
Proof.
  intros Hnext. exists (headers_for c r (w_Header s)).
  destruct (ServeHTTP_forwards c r next s) as (_ & Hh & Hf).
  destruct (ServeHTTP_forwards c r next (ServeHTTP c r next s).2) as (_ & _ & Hf2).
  split; [exact Hf |].
  rewrite Hf2, Hf, Hh, Hnext, headers_for_idempotent, <- app_assoc. reflexivity.
Qed.

Lemma ServeHTTP_twice_witness :
  (forall h, (failing_handler preflight_request h).1 = h)
  /\ exists h',
       forwarded (ServeHTTP (H := regexp.example) listed_policy preflight_request
                    failing_handler (exchange upstream_headers)).2 = ([] ++ [h'])%list
       /\ forwarded (ServeHTTP (H := regexp.example) listed_policy preflight_request
                       failing_handler
                       (ServeHTTP (H := regexp.example) listed_policy preflight_request
                          failing_handler (exchange upstream_headers)).2).2
          = ([] ++ [h'; h'])%list.
Proof.
  split; [reflexivity |].
  apply (ServeHTTP_twice (H := regexp.example) listed_policy preflight_request
           failing_handler (exchange upstream_headers)).
  reflexivity.
Defined.

(** ** Requests: start-up and handling together *)

(** X15. After [Provision] and [Validate], a configured [max_age] that is not
    negative reaches an admitted preflight as an [Access-Control-Max-Age]
    between 1 and 86400: 5 for a [max_age] of zero, 86400 for one above it,
    the configured value otherwise. *)
Theorem max_age_header_after_startup `{regexp.Matcher} st r next s :
  let c := module_ (Validate (Provision st).2).2 in
  0 <= MaxAge (module_ st) ->
  http.Get (http.Header_ r) "Origin" <> "" ->
  (shouldHandleCors c r s).1 = true ->
  (isPreflight c r s).1 = true ->
  OverrideExistingCors (module_ st) = true ->
  exists h' age,
    forwarded (ServeHTTP c r next s).2 = (forwarded s ++ [h'])%list
    /\ h' !! "Access-Control-Max-Age" = Some [Sprintf_d age]
    /\ 1 <= age <= 86400
    /\ age = Z.min (if MaxAge (module_ st) =? 0 then 5 else MaxAge (module_ st)) 86400.
Proof.
  intros c Hage Ho Ha Hp Hov.
  assert (Hc : MaxAge c
               = Z.min (if MaxAge (module_ st) =? 0 then 5 else MaxAge (module_ st)) 86400).
  { unfold c. now rewrite Validate_MaxAge, Provision_MaxAge. }
  assert (Hovc : OverrideExistingCors c = true).
  { unfold c. rewrite Validate_module, Provision_module. exact Hov. }
  assert (Hrange : 1 <= MaxAge c <= 86400).
  { rewrite Hc. destruct (Z.eqb_spec (MaxAge (module_ st)) 0); lia. }
  exists (admitted_headers c r (w_Header s)), (MaxAge c).
  split; [now apply admitted_forwarded |].
  split; [apply admitted_headers_max_age; [exact Hp | exact Hovc | lia] |].
  split; [exact Hrange | exact Hc].
Qed.

Lemma max_age_header_after_startup_witness :
  0 <= MaxAge (module_ (provisioned (set_MaxAge 100000 open_policy)))
  /\ exists h',
       forwarded (ServeHTTP (H := regexp.example)
                    (module_ (Validate (Provision
                       (provisioned (set_MaxAge 100000 open_policy))).2).2)
                    preflight_request static_handler (exchange ∅)).2 = ([] ++ [h'])%list
       /\ h' !! "Access-Control-Max-Age" = Some ["86400"].
Proof.
  split; [vm_compute; discriminate |].
  destruct (max_age_header_after_startup (H := regexp.example)
              (provisioned (set_MaxAge 100000 open_policy)) preflight_request
              static_handler (exchange ∅))
    as (h' & age & Hf & Hh & _ & Hage);
    [vm_compute; discriminate | discriminate | reflexivity | reflexivity | reflexivity |].
  exists h'. split; [exact Hf |]. rewrite Hh, Hage. reflexivity.
Defined.

(** ** Requests: the diagnostics *)

Lemma keeps_log_ret {A : Type} (a : A) : keeps_log (ret a).
Proof. intros s e He. exact He. Qed.

Lemma keeps_log_bind {A B : Type} (m : M Exchange A) (k : A -> M Exchange B) :
  keeps_log m -> (forall a, keeps_log (k a)) -> keeps_log (bind m k).
Proof. intros Hm Hk s e He. rewrite bind_run. apply Hk, Hm, He. Qed.

Lemma keeps_log_write lvl msg fs : keeps_log (logger_write lvl msg fs).
Proof. intros s e He. cbn. apply in_or_app. now left. Qed.

Lemma keeps_log_if {A : Type} (b : bool) (m1 m2 : M Exchange A) :
  keeps_log m1 -> keeps_log m2 -> keeps_log (if b then m1 else m2).
Proof. destruct b; auto. Qed.

Lemma keeps_log_modify_headers (f : Exchange -> Header) :
  keeps_log (modify (fun s => {| w_Header := f s;
                                 request_log := request_log s;
                                 forwarded := forwarded s |})).
Proof. intros s e He. exact He. Qed.

Lemma keeps_log_next next r : keeps_log (next_ServeHTTP next r).
Proof. intros s e He. exact He. Qed.

Lemma keeps_log_gets {A : Type} (p : Exchange -> A) : keeps_log (gets p).
Proof. intros s e He. exact He. Qed.

Lemma keeps_log_range_existing l : keeps_log (range_existing l).
Proof.
  induction l as [| k l IH]; [apply keeps_log_ret |].
  simpl. apply keeps_log_bind; [| intros _; exact IH].
  apply keeps_log_if; [apply keeps_log_write | apply keeps_log_ret].
Qed.

Lemma keeps_log_range_AllowedOrigins `{regexp.Matcher} origin l :
  keeps_log (range_AllowedOrigins origin l).
Proof.
  induction l as [| e l IH]; [apply keeps_log_ret |].
  simpl. unfold logger_Info.
  repeat first
    [ exact IH | apply keeps_log_ret | apply keeps_log_write | apply keeps_log_if
    | apply keeps_log_bind; [| intros ?] ].
Qed.

Ltac keeps_log_steps :=
  unfold setHeader, isPreflight, shouldHandleCors, logger_Info, logger_Debug, logger_Warn;
  repeat first
    [ apply keeps_log_ret | apply keeps_log_write | apply keeps_log_next
    | apply keeps_log_gets | apply keeps_log_modify_headers
    | apply keeps_log_range_existing | apply keeps_log_range_AllowedOrigins
    | apply keeps_log_if | apply keeps_log_bind; [| intros ?] ].

(** Each [Access-Control-*] name of the list met by the loop is logged. *)
Lemma range_existing_logs l k s :
  In k l -> strings.HasPrefix k "Access-Control-" = true ->
  In (already_set k) (request_log (range_existing l s).2).
Proof.
  revert s. induction l as [| a l IH]; intros s; [intros [] |].
  intros [-> | Hin] Hpre; simpl; rewrite bind_run.
  - apply keeps_log_range_existing. rewrite Hpre. cbn.
    apply in_or_app. right. now left.
  - now apply IH.
Qed.

(** X16. On a request with an origin, every [Access-Control-*] header the
    response already holds is reported to the logger at debug level, and the
    entry is still in the log when [ServeHTTP] returns. *)
Theorem ServeHTTP_reports_existing_headers `{regexp.Matcher} c r next s k :
  http.Get (http.Header_ r) "Origin" <> "" ->
  is_Some (w_Header s !! k) ->
  strings.HasPrefix k "Access-Control-" = true ->
  In (already_set k) (request_log (ServeHTTP c r next s).2).
Proof.
  intros Ho [vs Hk] Hpre. apply String.eqb_neq in Ho.
  unfold ServeHTTP. rewrite bind_run, Ho, bind_run, bind_run.
  match goal with
  | |- In _ (request_log (?rest ?s1).2) =>
      assert (Hrest : keeps_log rest) by keeps_log_steps;
      apply Hrest
  end.
  apply range_existing_logs; [| exact Hpre].
  apply list_elem_of_In, list_elem_of_fmap. exists (k, vs). split; [reflexivity |].
  apply elem_of_map_to_list. exact Hk.
Qed.

Lemma ServeHTTP_reports_existing_headers_witness :
  http.Get (http.Header_ get_request) "Origin" <> ""
  /\ is_Some (upstream_headers !! "Access-Control-Allow-Private-Network")
  /\ strings.HasPrefix "Access-Control-Allow-Private-Network" "Access-Control-" = true
  /\ In (already_set "Access-Control-Allow-Private-Network")
        (request_log (ServeHTTP (H := regexp.example) silent_policy get_request
                        static_handler (exchange upstream_headers)).2).
Proof.
  split; [discriminate |]. split; [eexists; reflexivity |]. split; [reflexivity |].
  apply (ServeHTTP_reports_existing_headers (H := regexp.example) silent_policy
           get_request static_handler (exchange upstream_headers));
    [discriminate | eexists; reflexivity | reflexivity].
Defined.

(** X17. [shouldHandleCors] and [isPreflight] only read: they leave the
    response header map alone, call no handler and drop nothing from the
    log. *)
Theorem deciding_only_logs `{regexp.Matcher} c r s :
  let decided := (shouldHandleCors c r s).2 in
  let classified := (isPreflight c r s).2 in
  w_Header decided = w_Header s /\ forwarded decided = forwarded s
  /\ w_Header classified = w_Header s /\ forwarded classified = forwarded s
  /\ forall e, In e (request_log s) ->
               In e (request_log decided) /\ In e (request_log classified).
Proof.
  cbn zeta.
  destruct (writes_shouldHandleCors c r s) as (_ & Hh & Hf).
  destruct (writes_isPreflight c r s) as (_ & Hh' & Hf').
  repeat split; auto.
  - assert (Hk : keeps_log (shouldHandleCors c r)) by keeps_log_steps. now apply Hk.
  - assert (Hk : keeps_log (isPreflight c r)) by keeps_log_steps. now apply Hk.
Qed.

(** ** The header helpers: [setHeader], [HandleHeader], [WriteHeader] *)

(** X18. With [override_existing_cors] true, after [setHeader] the header
    reads back as the value just set, under any spelling of the name that has
    the same canonical form, and every other canonical name is untouched;
    with the flag false the header map is unchanged. *)
Theorem setHeader_then_Get c headerName headerValue s :
  (OverrideExistingCors c = true ->
   (forall name,
      textproto.CanonicalMIMEHeaderKey name = textproto.CanonicalMIMEHeaderKey headerName ->
      http.Get (w_Header (setHeader c headerName headerValue s).2) name = headerValue)
   /\ (forall k,
         k <> textproto.CanonicalMIMEHeaderKey headerName ->
         w_Header (setHeader c headerName headerValue s).2 !! k = w_Header s !! k))
  /\ (OverrideExistingCors c = false ->
      w_Header (setHeader c headerName headerValue s).2 = w_Header s).
Proof.
  destruct (writes_setHeader c headerName headerValue s) as (_ & -> & _).
  unfold put. split; intros ->; [| reflexivity]. split.
  - intros name Hname. unfold http.Get, http.Set_. rewrite Hname.
    now rewrite lookup_insert_eq.
  - intros k Hk. unfold http.Set_. now rewrite lookup_insert_ne.
Qed.

Lemma setHeader_then_Get_witness :
  OverrideExistingCors open_policy = true
  /\ textproto.CanonicalMIMEHeaderKey "vary" = textproto.CanonicalMIMEHeaderKey "VARY"
  /\ http.Get (w_Header (setHeader open_policy "VARY" "Origin"
                           (exchange upstream_headers)).2) "vary" = "Origin".
Proof.
  split; [reflexivity |]. split; [reflexivity |].
  apply (proj1 (setHeader_then_Get open_policy "VARY" "Origin" (exchange upstream_headers)));
    reflexivity.
Defined.

Lemma HandleHeader_headers c header value s :
  w_Header (HandleHeader c header value s).2
  = if negb (String.eqb (http.Get (w_Header s) header) "") && negb (OverrideExistingCors c)
    then w_Header s
    else http.Set_ (w_Header s) header value.
Proof.
  unfold HandleHeader. rewrite bind_run. cbn [gets fst snd].
  destruct (String.eqb (http.Get (w_Header s) header) ""), (OverrideExistingCors c);
    cbn; try reflexivity;
    unfold http.Set_, http.Del; apply insert_delete_eq.
Qed.

(** X19. [HandleHeader] leaves the header map unchanged when the header
    already reads as a non-empty value and [override_existing_cors] is false;
    in every other case the header then reads as the new value. *)
Theorem HandleHeader_sets_or_keeps c header value s :
  (http.Get (w_Header s) header <> "" -> OverrideExistingCors c = false ->
   w_Header (HandleHeader c header value s).2 = w_Header s)
  /\ (http.Get (w_Header s) header = "" \/ OverrideExistingCors c = true ->
      http.Get (w_Header (HandleHeader c header value s).2) header = value).
Proof.
  rewrite HandleHeader_headers. split.
  - intros Hg Hov. apply String.eqb_neq in Hg. now rewrite Hg, Hov.
  - intros Hcase.
    assert (Hcond : negb (String.eqb (http.Get (w_Header s) header) "")
                    && negb (OverrideExistingCors c) = false).
    { destruct Hcase as [Hg | Hov].
      - rewrite Hg. reflexivity.
      - rewrite Hov. apply andb_false_r. }
    rewrite Hcond. unfold http.Get, http.Set_. now rewrite lookup_insert_eq.
Qed.

Lemma HandleHeader_sets_or_keeps_witness :
  http.Get (w_Header (exchange upstream_headers)) "Vary" <> ""
  /\ OverrideExistingCors silent_policy = false
  /\ w_Header (HandleHeader silent_policy "Vary" "Origin" (exchange upstream_headers)).2
     = upstream_headers.
Proof.
  split; [discriminate |]. split; [reflexivity |].
  apply (proj1 (HandleHeader_sets_or_keeps silent_policy "Vary" "Origin"
                  (exchange upstream_headers))); [discriminate | reflexivity].
Defined.

(** X20. [setHeader], which [ServeHTTP] uses, and the unused [HandleHeader]
    write the same header map when [override_existing_cors] is true.  With
    the flag false they differ on a header the response lacks: [HandleHeader]
    adds it, [setHeader] does not. *)
Theorem setHeader_versus_HandleHeader c header value s :
  (OverrideExistingCors c = true ->
   w_Header (setHeader c header value s).2 = w_Header (HandleHeader c header value s).2)
  /\ (OverrideExistingCors c = false -> http.Get (w_Header s) header = "" ->
      w_Header (setHeader c header value s).2 = w_Header s
      /\ w_Header (HandleHeader c header value s).2 = http.Set_ (w_Header s) header value).
Proof.
  rewrite HandleHeader_headers.
  destruct (writes_setHeader c header value s) as (_ & -> & _). unfold put.
  split.
  - intros ->. now rewrite andb_false_r.
  - intros -> ->. split; reflexivity.
Qed.

Lemma setHeader_versus_HandleHeader_witness :
  OverrideExistingCors silent_policy = false
  /\ http.Get (w_Header (exchange ∅)) "Vary" = ""
  /\ w_Header (setHeader silent_policy "Vary" "Origin" (exchange ∅)).2 = ∅
  /\ w_Header (HandleHeader silent_policy "Vary" "Origin" (exchange ∅)).2
     = http.Set_ ∅ "Vary" "Origin".
Proof.
  split; [reflexivity |]. split; [reflexivity |].
  apply (proj2 (setHeader_versus_HandleHeader silent_policy "Vary" "Origin" (exchange ∅)));
    reflexivity.
Defined.

(** *** [WriteHeader] *)

Lemma prefix_split (p s : string) :
  String.prefix p s = true -> exists rest, s = p +:+ rest.
Proof.
  revert s. induction p as [| a p IH]; intros s Hp.
  - now exists s.
  - destruct s as [| b s]; [discriminate |]. simpl in Hp.
    destruct (Ascii.ascii_dec a b) as [<- |]; [| discriminate].
    destruct (IH s Hp) as [rest ->]. now exists rest.
Qed.

(** A name that starts with [Access-Control-] still does once canonical. *)
Lemma canonical_keeps_prefix k :
  strings.HasPrefix k "Access-Control-" = true ->
  strings.HasPrefix (textproto.CanonicalMIMEHeaderKey k) "Access-Control-" = true.
Proof.
  intros Hpre. destruct (prefix_split _ _ Hpre) as [rest ->].
  unfold textproto.CanonicalMIMEHeaderKey.
  destruct (forallb _ _); [| exact Hpre]. unfold strings.HasPrefix.
  simpl. now destruct (textproto.canonicalize _ _).
Qed.

Lemma range_strip_frame l s :
  forwarded (range_strip l s).2 = forwarded s
  /\ forall k, (range_strip l s).2.(w_Header) !! k = w_Header s !! k
               \/ ((range_strip l s).2.(w_Header) !! k = None
                   /\ strings.HasPrefix k "Access-Control-" = true).
Proof.
  revert s. induction l as [| a l IH]; intros s; [split; [reflexivity | now left] |].
  simpl. rewrite !bind_run. cbn [gets fst snd].
  destruct (bool_decide _ && strings.HasPrefix a "Access-Control-") eqn:Hcond.
  - rewrite bind_run. cbn [logger_Info logger_write modify emit Exchange_logging fst snd].
    match goal with |- context [range_strip l ?s'] => destruct (IH s') as [Hf Hl] end.
    split; [exact Hf |]. intros k. destruct (Hl k) as [-> | Hnone]; [| now right].
    cbn. unfold http.Del.
    destruct (decide (textproto.CanonicalMIMEHeaderKey a = k)) as [<- | Hne].
    + right. split; [apply lookup_delete_eq |].
      apply canonical_keeps_prefix. now apply andb_prop in Hcond.
    + left. now apply lookup_delete_ne.
  - apply IH.
Qed.

Lemma range_strip_removes l k s :
  In k l ->
  strings.HasPrefix k "Access-Control-" = true ->
  textproto.CanonicalMIMEHeaderKey k = k ->
  (range_strip l s).2.(w_Header) !! k = None.
Proof.
  revert s. induction l as [| a l IH]; intros s; [intros [] |].
  intros [-> | Hin] Hpre Hcan.
  - simpl. rewrite !bind_run. cbn [gets fst snd].
    match goal with |- context [range_strip l ?s'] =>
      destruct (range_strip_frame l s') as [_ Hl]; destruct (Hl k) as [-> | [Hn _]];
        [| exact Hn] end.
    rewrite Hpre, andb_true_r.
    destruct (bool_decide_reflect (is_Some (w_Header s !! k))) as [Hs | Hs].
    + cbn. unfold http.Del. rewrite Hcan. apply lookup_delete_eq.
    + cbn. destruct (w_Header s !! k) eqn:E; [exfalso; apply Hs; eauto | reflexivity].
  - simpl. rewrite !bind_run. now apply IH.
Qed.

(** X21. The stripping pass [WriteHeader]: with [override_existing_cors] true
    it removes every [Access-Control-*] header stored under its canonical
    name and leaves every header whose name does not start with
    [Access-Control-] as it was; with the flag false it changes nothing.  It
    never calls the next handler. *)
Theorem WriteHeader_strips c statusCode s :
  forwarded (WriteHeader c statusCode s).2 = forwarded s
  /\ (OverrideExistingCors c = false -> w_Header (WriteHeader c statusCode s).2 = w_Header s)
  /\ (forall k, strings.HasPrefix k "Access-Control-" = false ->
                w_Header (WriteHeader c statusCode s).2 !! k = w_Header s !! k)
  /\ (OverrideExistingCors c = true ->
      forall k, strings.HasPrefix k "Access-Control-" = true ->
                textproto.CanonicalMIMEHeaderKey k = k ->
                w_Header (WriteHeader c statusCode s).2 !! k = None).
Proof.
  unfold WriteHeader. destruct (OverrideExistingCors c).
  - rewrite bind_run. cbn [gets fst snd].
    destruct (range_strip_frame (map_to_list (w_Header s)).*1 s) as [Hf Hl].
    split; [exact Hf |]. split; [discriminate |]. split.
    + intros k Hpre. destruct (Hl k) as [-> | [_ Hp]]; [reflexivity | congruence].
    + intros _ k Hpre Hcan. destruct (w_Header s !! k) as [vs |] eqn:Hk.
      * apply range_strip_removes; [| exact Hpre | exact Hcan].
        apply list_elem_of_In, list_elem_of_fmap. exists (k, vs).
        split; [reflexivity |]. now apply elem_of_map_to_list.
      * destruct (Hl k) as [Heq | [Hn _]]; [now rewrite Heq | exact Hn].
  - repeat split; auto. discriminate.
Qed.

Lemma WriteHeader_strips_witness :
  OverrideExistingCors open_policy = true
  /\ strings.HasPrefix "Access-Control-Allow-Origin" "Access-Control-" = true
  /\ upstream_headers !! "Access-Control-Allow-Origin" = Some ["https://old.example"]
  /\ w_Header (WriteHeader open_policy 200 (exchange upstream_headers)).2
       !! "Access-Control-Allow-Origin" = None
  /\ w_Header (WriteHeader open_policy 200 (exchange upstream_headers)).2 !! "Vary"
     = Some ["Accept-Encoding"].
Proof.
  split; [reflexivity |]. split; [reflexivity |]. split; [reflexivity |].
  destruct (WriteHeader_strips open_policy 200 (exchange upstream_headers))
    as (_ & _ & Hkeep & Hdrop).
  split; [apply Hdrop; reflexivity |]. rewrite Hkeep; reflexivity.
Defined.

(** ** Origin matching: plain entries and regular expressions *)

(** An entry that is neither the wildcard nor delimited by [^] and [$] admits
    exactly its own text. *)
Lemma entry_admits_plain `{regexp.Matcher} origin e :
  e <> "*" ->
  strings.HasPrefix e "^" && strings.HasSuffix e "$" = false ->
  entry_admits origin e = String.eqb origin e.
Proof.
  intros Hw Hd. unfold entry_admits. apply String.eqb_neq in Hw.
  rewrite Hw, Hd. reflexivity.
Qed.

(** X22. An origin listed literally in [allowed_origins] is always admitted.
    When no entry is the wildcard or delimited by [^] and [$], the admitted
    origins are exactly the listed strings, and the regular-expression
    library is never consulted: an entry such as [https://.*\.example\.com],
    without the delimiters, is compared as plain text. *)
Theorem plain_entries_admit_by_equality `{regexp.Matcher} c r s :
  (In (http.Get (http.Header_ r) "Origin") (AllowedOrigins c) ->
   (shouldHandleCors c r s).1 = true)
  /\ ((forall e, In e (AllowedOrigins c) ->
                 e <> "*"
                 /\ strings.HasPrefix e "^" && strings.HasSuffix e "$" = false) ->
      ((shouldHandleCors c r s).1 = true <->
       In (http.Get (http.Header_ r) "Origin") (AllowedOrigins c))).
Proof.
  rewrite shouldHandleCors_decides. split.
  - intros Hin. apply existsb_exists. eexists. split; [exact Hin |].
    unfold entry_admits. rewrite String.eqb_refl. apply orb_true_r.
  - intros Hplain. rewrite existsb_exists. split.
    + intros (e & Hin & He). destruct (Hplain e Hin) as [Hw Hd].
      rewrite entry_admits_plain in He by assumption.
      apply String.eqb_eq in He. now subst.
    + intros Hin. eexists. split; [exact Hin |].
      unfold entry_admits. rewrite String.eqb_refl. apply orb_true_r.
Qed.

Lemma plain_entries_admit_by_equality_witness :
  (forall e, In e (AllowedOrigins exact_policy) ->
             e <> "*" /\ strings.HasPrefix e "^" && strings.HasSuffix e "$" = false)
  /\ ~ In (http.Get (http.Header_ (request_from "GET" "https://api.example.com")) "Origin")
          (AllowedOrigins exact_policy)
  /\ (shouldHandleCors (H := regexp.example) exact_policy
        (request_from "GET" "https://api.example.com") (exchange ∅)).1 <> true.
Proof.
  assert (Hplain : forall e, In e (AllowedOrigins exact_policy) ->
            e <> "*" /\ strings.HasPrefix e "^" && strings.HasSuffix e "$" = false).
  { intros e [<- | [<- | []]]; split; (discriminate || reflexivity). }
  assert (Hnot : ~ In (http.Get (http.Header_ (request_from "GET" "https://api.example.com"))
                         "Origin") (AllowedOrigins exact_policy)).
  { intros [Hx | [Hx | []]]; discriminate Hx. }
  split; [exact Hplain |]. split; [exact Hnot |].
  intros Ha. apply Hnot.
  apply (proj2 (plain_entries_admit_by_equality (H := regexp.example) exact_policy
                  (request_from "GET" "https://api.example.com") (exchange ∅)) Hplain).
  exact Ha.
Defined.

(** X23. An entry delimited by [^] and [$] admits every origin the
    regular-expression library reports as matching it without error,
    wherever the entry stands in the list. *)
Theorem matching_regex_entry_admits `{regexp.Matcher} c r s p :
  In p (AllowedOrigins c) ->
  strings.HasPrefix p "^" = true ->
  strings.HasSuffix p "$" = true ->
  regexp.MatchString p (http.Get (http.Header_ r) "Origin") = (true, None) ->
  (shouldHandleCors c r s).1 = true.
Proof.
  intros Hin Hpre Hsuf Hm. rewrite shouldHandleCors_decides.
  apply existsb_exists. exists p. split; [exact Hin |].
  unfold entry_admits. rewrite Hpre, Hsuf, Hm. cbn. now rewrite orb_true_r.
Qed.

Lemma matching_regex_entry_admits_witness :
  In "^https://.*\.example\.com$" (AllowedOrigins subdomain_policy)
  /\ strings.HasPrefix "^https://.*\.example\.com$" "^" = true
  /\ strings.HasSuffix "^https://.*\.example\.com$" "$" = true
  /\ regexp.example "^https://.*\.example\.com$"
       (http.Get (http.Header_ (request_from "GET" "https://api.example.com")) "Origin")
     = (true, None)
  /\ (shouldHandleCors (H := regexp.example) subdomain_policy
        (request_from "GET" "https://api.example.com") (exchange ∅)).1 = true.
Proof.
  split; [left; reflexivity |]. split; [reflexivity |]. split; [reflexivity |].
  split; [reflexivity |].
  apply (matching_regex_entry_admits (H := regexp.example) subdomain_policy
           (request_from "GET" "https://api.example.com") (exchange ∅)
           "^https://.*\.example\.com$");
    [left; reflexivity | reflexivity | reflexivity | reflexivity].
Defined.

(** X24. Admission does not depend on the order of [allowed_origins]: two
    policies whose lists hold the same entries admit the same origins. *)
Theorem admission_ignores_order `{regexp.Matcher} c1 c2 r s1 s2 :
  (forall e, In e (AllowedOrigins c1) <-> In e (AllowedOrigins c2)) ->
  (shouldHandleCors c1 r s1).1 = (shouldHandleCors c2 r s2).1.
Proof.
  intros Hsame. rewrite !shouldHandleCors_decides.
  apply eq_true_iff_eq. rewrite !existsb_exists.
  split; intros (e & Hin & He); exists e; (split; [apply Hsame, Hin | exact He]).
Qed.

Lemma admission_ignores_order_witness :
  (forall e, In e (AllowedOrigins listed_policy)
             <-> In e (AllowedOrigins (set_AllowedOrigins
                                         ["*"; "https://app.example.com"] listed_policy)))
  /\ (shouldHandleCors (H := regexp.example) listed_policy get_request (exchange ∅)).1
     = (shouldHandleCors (H := regexp.example)
          (set_AllowedOrigins ["*"; "https://app.example.com"] listed_policy)
          get_request (exchange upstream_headers)).1.
Proof.
  assert (Hsame : forall e, In e (AllowedOrigins listed_policy)
             <-> In e (AllowedOrigins (set_AllowedOrigins
                                         ["*"; "https://app.example.com"] listed_policy))).
  { intros e. cbn. tauto. }
  split; [exact Hsame |].
  apply (admission_ignores_order (H := regexp.example) listed_policy
           (set_AllowedOrigins ["*"; "https://app.example.com"] listed_policy)
           get_request (exchange ∅) (exchange upstream_headers) Hsame).
Defined.

(** ** The Caddyfile subdirectives *)

Section Subdirective_facts.

Context {D : Type} {dispenser : caddyfile.Dispenser D} {parser : strconv.Parser}.

Ltac run_subdirective :=
  unfold subdirective, bind, gets, call, assign, modify, ret; cbn [fst snd d_ c_].

Ltac subdirective_cases :=
  repeat (match goal with
          | |- context [if String.eqb ?a ?b then _ else _] =>
              destruct (String.eqb_spec a b)
          end; cbn [fst snd d_ c_]);
  try match goal with
      | |- context [caddyfile.NextArg ?d] =>
          destruct (caddyfile.NextArg d) as [[|] ?]; cbn [fst snd d_ c_]
      end;
  try match goal with
      | |- context [strconv.Atoi ?v] =>
          destruct (strconv.Atoi v) as [? [? |]]; cbn [fst snd d_ c_]
      end.

(** X25. A subdirective that is refused (an unknown name, a missing argument,
    a [max_age] that is not an integer) leaves the module as it was. *)
Theorem subdirective_error_changes_nothing (u : Unmarshal D) :
  (subdirective u).1 <> None -> c_ (subdirective u).2 = c_ u.
Proof.
  run_subdirective. subdirective_cases;
    first [ intros _; reflexivity | intros Herr; exfalso; apply Herr; reflexivity ].
Qed.

(** X26. An unknown subdirective is refused: the function returns the
    dispenser's error for the message [unrecognized subdirective <name>]. *)
Theorem unknown_subdirective_refused (u : Unmarshal D) :
  ~ In (caddyfile.Val (d_ u))
       ["allowed_origins"; "override_existing_cors"; "allowed_methods";
        "allow_credentials"; "max_age"; "allowed_headers"; "exposed_headers"] ->
  (subdirective u).1
  = Some (caddyfile.Errf (d_ u)
            ("unrecognized subdirective " +:+ caddyfile.Val (d_ u))).
Proof.
  intros Hnot. run_subdirective.
  repeat match goal with
         | |- context [if String.eqb ?a ?b then _ else _] =>
             destruct (String.eqb_spec a b) as [Heq | _];
               [exfalso; apply Hnot; rewrite Heq; simpl; tauto |]
         end.
  reflexivity.
Qed.

(** X27. The two flags are true only for the exact word [true]: with an
    argument, [override_existing_cors] and [allow_credentials] are accepted
    without error whatever the argument says, and the flag is set to whether
    the argument equals ["true"] (so [True], [yes] or [1] turn it off). *)
Theorem flag_is_true_only_for_true (u : Unmarshal D) d' :
  caddyfile.NextArg (d_ u) = (true, d') ->
  (caddyfile.Val (d_ u) = "override_existing_cors" ->
   (subdirective u).1 = None
   /\ (OverrideExistingCors (c_ (subdirective u).2) = true <-> caddyfile.Val d' = "true")
   /\ set_OverrideExistingCors (OverrideExistingCors (c_ u)) (c_ (subdirective u).2) = c_ u)
  /\ (caddyfile.Val (d_ u) = "allow_credentials" ->
      (subdirective u).1 = None
      /\ (AllowCredentials (c_ (subdirective u).2) = true <-> caddyfile.Val d' = "true")
      /\ set_AllowCredentials (AllowCredentials (c_ u)) (c_ (subdirective u).2) = c_ u).
Proof.
  intros Hnext. run_subdirective.
  split; intros ->; cbn [String.eqb Ascii.eqb Bool.eqb fst snd d_ c_];
    rewrite Hnext; cbn [fst snd d_ c_ OverrideExistingCors AllowCredentials
                        set_OverrideExistingCors set_AllowCredentials];
    (split; [reflexivity |]); (split; [apply String.eqb_eq |]);
    now destruct (c_ u).
Qed.

(** X28. [max_age] takes any integer [strconv.Atoi] accepts, a negative one
    included, and a negative [max_age] then goes through [Provision] and
    [Validate] unchanged; a text [Atoi] rejects is refused. *)
Theorem max_age_subdirective (u : Unmarshal D) d' :
  caddyfile.Val (d_ u) = "max_age" ->
  caddyfile.NextArg (d_ u) = (true, d') ->
  (forall n, strconv.Atoi (caddyfile.Val d') = (n, None) ->
     (subdirective u).1 = None
     /\ MaxAge (c_ (subdirective u).2) = n
     /\ (n < 0 ->
         MaxAge (module_ (Validate (Provision
                   (provisioned (c_ (subdirective u).2))).2).2) = n))
  /\ (forall n e, strconv.Atoi (caddyfile.Val d') = (n, Some e) ->
        (subdirective u).1
        = Some (caddyfile.Errf d' ("invalid max_age value: " +:+ e))).
Proof.
  intros Hval Hnext. run_subdirective.
  rewrite Hval. cbn [String.eqb Ascii.eqb Bool.eqb fst snd d_ c_].
  rewrite Hnext. cbn [fst snd d_ c_].
  split.
  - intros n Hn. rewrite Hn. cbn [fst snd d_ c_].
    split; [reflexivity |]. split; [reflexivity |].
    intros Hneg. rewrite Validate_MaxAge, Provision_MaxAge. cbn.
    destruct (Z.eqb_spec n 0); lia.
  - intros n e Hn. rewrite Hn. reflexivity.
Qed.

(** X29. A list option replaces the list with the arguments that follow it,
    and [allowed_origins] followed by no argument, once provisioned, admits
    every origin. *)
Theorem allowed_origins_subdirective `{regexp.Matcher} (u : Unmarshal D) r s :
  caddyfile.Val (d_ u) = "allowed_origins" ->
  (subdirective u).1 = None
  /\ AllowedOrigins (c_ (subdirective u).2) = (caddyfile.RemainingArgs (d_ u)).1
  /\ ((caddyfile.RemainingArgs (d_ u)).1 = [] ->
      (shouldHandleCors
         (module_ (Provision (provisioned (c_ (subdirective u).2))).2) r s).1 = true).
Proof.
  intros Hval. run_subdirective.
  rewrite Hval. cbn [String.eqb Ascii.eqb Bool.eqb fst snd d_ c_].
  split; [reflexivity |]. split; [reflexivity |].
  intros Hargs. rewrite shouldHandleCors_decides, Provision_module. cbn.
  rewrite Hargs. reflexivity.
Qed.

(** X30. A subdirective touches no field but its own: each field of the
    module is as before unless the subdirective carries its name. *)
Theorem subdirective_frame (u : Unmarshal D) :
  let c' := c_ (subdirective u).2 in
  let val := caddyfile.Val (d_ u) in
  (val <> "allowed_origins" -> AllowedOrigins c' = AllowedOrigins (c_ u))
  /\ (val <> "override_existing_cors" ->
      OverrideExistingCors c' = OverrideExistingCors (c_ u))
  /\ (val <> "allowed_methods" -> AllowedMethods c' = AllowedMethods (c_ u))
  /\ (val <> "allow_credentials" -> AllowCredentials c' = AllowCredentials (c_ u))
  /\ (val <> "max_age" -> MaxAge c' = MaxAge (c_ u))
  /\ (val <> "allowed_headers" -> AllowedHeaders c' = AllowedHeaders (c_ u))
  /\ (val <> "exposed_headers" -> ExposedHeaders c' = ExposedHeaders (c_ u)).
Proof.
  cbn zeta. run_subdirective. subdirective_cases;
    repeat split; intros Hne; try reflexivity; congruence.
Qed.

End Subdirective_facts.

Lemma subdirective_error_changes_nothing_witness :
  (subdirective (dispenser := caddyfile.line) (parser := strconv.example)
     {| d_ := ["max_age"; "soon"]; c_ := listed_policy |}).1 <> None
  /\ c_ (subdirective (dispenser := caddyfile.line) (parser := strconv.example)
           {| d_ := ["max_age"; "soon"]; c_ := listed_policy |}).2 = listed_policy.
Proof.
  split; [discriminate |].
  apply (subdirective_error_changes_nothing (dispenser := caddyfile.line)
           (parser := strconv.example)
           {| d_ := ["max_age"; "soon"]; c_ := listed_policy |}).
  discriminate.
Defined.

Lemma unknown_subdirective_refused_witness :
  ~ In (caddyfile.Val (Dispenser := caddyfile.line) ["allowed_origin"; "*"])
       ["allowed_origins"; "override_existing_cors"; "allowed_methods";
        "allow_credentials"; "max_age"; "allowed_headers"; "exposed_headers"]
  /\ (subdirective (dispenser := caddyfile.line) (parser := strconv.example)
        {| d_ := ["allowed_origin"; "*"]; c_ := listed_policy |}).1
     = Some "unrecognized subdirective allowed_origin".
Proof.
  assert (Hnot : ~ In (caddyfile.Val (Dispenser := caddyfile.line) ["allowed_origin"; "*"])
       ["allowed_origins"; "override_existing_cors"; "allowed_methods";
        "allow_credentials"; "max_age"; "allowed_headers"; "exposed_headers"]).
  { cbn. intros Hin. repeat (destruct Hin as [Hin | Hin]; [discriminate Hin |]). exact Hin. }
  split; [exact Hnot |].
  apply (unknown_subdirective_refused (dispenser := caddyfile.line)
           (parser := strconv.example)
           {| d_ := ["allowed_origin"; "*"]; c_ := listed_policy |} Hnot).
Defined.

Lemma flag_is_true_only_for_true_witness :
  caddyfile.NextArg (Dispenser := caddyfile.line) ["override_existing_cors"; "True"]
  = (true, ["True"])
  /\ OverrideExistingCors listed_policy = true
  /\ (subdirective (dispenser := caddyfile.line) (parser := strconv.example)
        {| d_ := ["override_existing_cors"; "True"]; c_ := listed_policy |}).1 = None
  /\ OverrideExistingCors
       (c_ (subdirective (dispenser := caddyfile.line) (parser := strconv.example)
              {| d_ := ["override_existing_cors"; "True"]; c_ := listed_policy |}).2)
     <> true.
Proof.
  split; [reflexivity |]. split; [reflexivity |].
  destruct (proj1 (flag_is_true_only_for_true (dispenser := caddyfile.line)
                     (parser := strconv.example)
                     {| d_ := ["override_existing_cors"; "True"]; c_ := listed_policy |}
                     ["True"] eq_refl) eq_refl) as (Hok & Hiff & _).
  split; [exact Hok |]. intros Hon. apply Hiff in Hon. discriminate Hon.
Defined.

Lemma max_age_subdirective_witness :
  caddyfile.Val (Dispenser := caddyfile.line) ["max_age"; "-30"] = "max_age"
  /\ caddyfile.NextArg (Dispenser := caddyfile.line) ["max_age"; "-30"] = (true, ["-30"])
  /\ strconv.example "-30" = (-30, None)
  /\ MaxAge (module_ (Validate (Provision (provisioned
       (c_ (subdirective (dispenser := caddyfile.line) (parser := strconv.example)
              {| d_ := ["max_age"; "-30"]; c_ := listed_policy |}).2))).2).2) = -30.
Proof.
  split; [reflexivity |]. split; [reflexivity |]. split; [reflexivity |].
  destruct (proj1 (max_age_subdirective (dispenser := caddyfile.line)
                     (parser := strconv.example)
                     {| d_ := ["max_age"; "-30"]; c_ := listed_policy |} ["-30"]
                     eq_refl eq_refl) (-30) eq_refl) as (_ & _ & Hneg).
  apply Hneg. reflexivity.
Defined.

Lemma allowed_origins_subdirective_witness :
  caddyfile.Val (Dispenser := caddyfile.line) ["allowed_origins"] = "allowed_origins"
  /\ (caddyfile.RemainingArgs (Dispenser := caddyfile.line) ["allowed_origins"]).1 = []
  /\ (shouldHandleCors (H := regexp.example)
        (module_ (Provision (provisioned
           (c_ (subdirective (dispenser := caddyfile.line) (parser := strconv.example)
                  {| d_ := ["allowed_origins"]; c_ := exact_policy |}).2))).2)
        odd_origin_request (exchange ∅)).1 = true.
Proof.
  split; [reflexivity |]. split; [reflexivity |].
  destruct (allowed_origins_subdirective (dispenser := caddyfile.line)
              (parser := strconv.example) (H := regexp.example)
              {| d_ := ["allowed_origins"]; c_ := exact_policy |}
              odd_origin_request (exchange ∅) eq_refl) as (_ & _ & Hall).
  apply Hall. reflexivity.
Defined.

Lemma subdirective_frame_witness :
  caddyfile.Val (Dispenser := caddyfile.line) ["allowed_methods"; "GET"; "HEAD"]
  <> "allowed_origins"
  /\ AllowedOrigins
       (c_ (subdirective (dispenser := caddyfile.line) (parser := strconv.example)
              {| d_ := ["allowed_methods"; "GET"; "HEAD"]; c_ := listed_policy |}).2)
     = AllowedOrigins listed_policy
  /\ AllowedMethods
       (c_ (subdirective (dispenser := caddyfile.line) (parser := strconv.example)
              {| d_ := ["allowed_methods"; "GET"; "HEAD"]; c_ := listed_policy |}).2)
     = ["GET"; "HEAD"].
Proof.
  split; [discriminate |].
  split; [| reflexivity].
  apply (proj1 (subdirective_frame (dispenser := caddyfile.line) (parser := strconv.example)
                  {| d_ := ["allowed_methods"; "GET"; "HEAD"]; c_ := listed_policy |})).
  discriminate.
Defined.
